(** * The storefront bootstrap ([app.js]): request pipeline, upload naming
      and error pages, as a shallow embedding.

    The file follows the source top to bottom.  JavaScript values, the
    [Date] arithmetic of ECMA-262 and the way Express walks its stack of
    layers are written out as executable definitions; what lives outside
    the bootstrap (session store, user model, token generator, routers,
    static files) is gathered in one record of oracles, [env]. *)

From stdpp Require Import gmap strings list fin_maps.
From Stdlib Require Import ZArith Lia String Ascii.

Set Warnings "-register-all,-clear-no-such-hyp".
#[local] Open Scope string_scope.
#[local] Open Scope list_scope.
#[local] Open Scope Z_scope.

(** ** JavaScript values *)

Module JS.

(** The values a session, a user document or a template variable can
    hold.  Objects are finite maps from property names to values; a
    [Date] is given by its time value. *)
Inductive value :=
  | VUndef
  | VNull
  | VBool (b : bool)
  | VNum (n : Z)
  | VStr (s : string)
  | VDate (t : Z)
  | VObj (o : gmap string value).

(** What can be thrown, handed to [next(err)] or be the reason of a
    rejected promise: the built-in errors, the errors of [http-errors]
    (they carry a status and the name of their class, such as
    [ForbiddenError]), multer's own (a code, the message that goes with
    it and the field) and the errors of any other class, given by the
    [name] and the [message] they carry. *)
Inductive exn :=
  | TypeError (msg : string)
  | Error (msg : string)
  | HttpError (status : Z) (name : string) (msg : string)
  | MulterError (code : string) (msg : string) (field : string)
  | OtherError (name : string) (msg : string).

(** [err.name] and [err.message]. *)
Definition error_name (e : exn) : string :=
  match e with
  | TypeError _ => "TypeError"
  | Error _ => "Error"
  | HttpError _ n _ => n
  | MulterError _ _ _ => "MulterError"
  | OtherError n _ => n
  end.

Definition error_message (e : exn) : string :=
  match e with
  | TypeError m | Error m | HttpError _ _ m | MulterError _ m _
  | OtherError _ m => m
  end.

(** [String(err)], the message [new Error(err)] is built from:
    [Error.prototype.toString] (ECMA-262, 20.5.3.4), which all these
    classes inherit. *)
Definition to_string (e : exn) : string :=
  if String.eqb (error_name e) "" then error_message e
  else if String.eqb (error_message e) "" then error_name e
  else error_name e +:+ ": " +:+ error_message e.

(** [ToBoolean]. *)
Definition truthy (v : value) : bool :=
  match v with
  | VUndef | VNull => false
  | VBool b => b
  | VNum n => negb (n =? 0)
  | VStr s => negb (String.eqb s "")
  | VDate _ | VObj _ => true
  end.

(** [a || b]. *)
Definition or (a b : value) : value := if truthy a then a else b.

(** [!a]. *)
Definition not (a : value) : bool := negb (truthy a).

(** [v.k]: reading a property of [undefined] or [null] throws; a missing
    property reads as [undefined].  Only the own data properties the
    bootstrap reads ([user], [_id], [isLoggedIn], [csrfSecret]) are
    looked up, none of which a primitive or a [Date] has. *)
Definition get (v : value) (k : string) : exn + value :=
  match v with
  | VUndef => inl (TypeError "Cannot read properties of undefined")
  | VNull => inl (TypeError "Cannot read properties of null")
  | VObj o => inr (default VUndef (o !! k))
  | _ => inr VUndef
  end.

(** [v?.k]: optional chaining short-circuits to [undefined]. *)
Definition opt_get (v : value) (k : string) : value :=
  match v with
  | VObj o => default VUndef (o !! k)
  | _ => VUndef
  end.

(** [v.k = x] on an object; assignment to a property of a primitive is
    dropped.  The bootstrap and its middleware assign to session objects
    only, and a property put on a [Date] is not kept here. *)
Definition set (v : value) (k : string) (x : value) : value :=
  match v with
  | VObj o => VObj (<[k := x]> o)
  | _ => v
  end.

End JS.

(** ** [Date.prototype.toISOString] (ECMA-262, 21.4.1 and 21.4.4.36) *)

Module DateTime.

Definition msPerDay : Z := 86400000.
Definition msPerHour : Z := 3600000.
Definition msPerMinute : Z := 60000.
Definition msPerSecond : Z := 1000.

(** The time values a [Date] can hold: 100,000,000 days either side of
    the epoch. *)
Definition maxTime : Z := 8640000000000000.
Definition valid_time (t : Z) : Prop := - maxTime <= t <= maxTime.

Definition Day (t : Z) : Z := t / msPerDay.
Definition TimeWithinDay (t : Z) : Z := t mod msPerDay.

Definition leap_year (y : Z) : bool :=
  if negb (y mod 4 =? 0) then false
  else if negb (y mod 100 =? 0) then true
  else if negb (y mod 400 =? 0) then false
  else true.

Definition DaysInYear (y : Z) : Z := if leap_year y then 366 else 365.

Definition DayFromYear (y : Z) : Z :=
  365 * (y - 1970) + (y - 1969) / 4 - (y - 1901) / 100 + (y - 1601) / 400.

Definition TimeFromYear (y : Z) : Z := msPerDay * DayFromYear y.

(** The largest [y] with [TimeFromYear y <= t], found among the three
    years around the mean-year estimate. *)
Definition YearFromTime (t : Z) : Z :=
  let y := 1970 + (Day t * 400) / 146097 in
  if TimeFromYear (y + 1) <=? t then y + 1
  else if TimeFromYear y <=? t then y
  else y - 1.

Definition InLeapYear (t : Z) : Z :=
  if leap_year (YearFromTime t) then 1 else 0.

Definition DayWithinYear (t : Z) : Z := Day t - DayFromYear (YearFromTime t).

Definition MonthFromTime (t : Z) : Z :=
  let d := DayWithinYear t in
  let l := InLeapYear t in
  if d <? 31 then 0
  else if d <? 59 + l then 1
  else if d <? 90 + l then 2
  else if d <? 120 + l then 3
  else if d <? 151 + l then 4
  else if d <? 181 + l then 5
  else if d <? 212 + l then 6
  else if d <? 243 + l then 7
  else if d <? 273 + l then 8
  else if d <? 304 + l then 9
  else if d <? 334 + l then 10
  else 11.

Definition DateFromTime (t : Z) : Z :=
  let d := DayWithinYear t in
  let l := InLeapYear t in
  match MonthFromTime t with
  | 0 => d + 1
  | 1 => d - 30
  | 2 => d - 58 - l
  | 3 => d - 89 - l
  | 4 => d - 119 - l
  | 5 => d - 150 - l
  | 6 => d - 180 - l
  | 7 => d - 211 - l
  | 8 => d - 242 - l
  | 9 => d - 272 - l
  | 10 => d - 303 - l
  | _ => d - 333 - l
  end.

Definition HourFromTime (t : Z) : Z := (t / msPerHour) mod 24.
Definition MinFromTime (t : Z) : Z := (t / msPerMinute) mod 60.
Definition SecFromTime (t : Z) : Z := (t / msPerSecond) mod 60.
Definition msFromTime (t : Z) : Z := t mod msPerSecond.

Definition digit (d : Z) : ascii :=
  match d with
  | 0 => "0" | 1 => "1" | 2 => "2" | 3 => "3" | 4 => "4"
  | 5 => "5" | 6 => "6" | 7 => "7" | 8 => "8" | _ => "9"
  end%char.

(** Zero-padded decimal of width [w], followed by [k]. *)
Fixpoint pad (w : nat) (n : Z) (k : string) : string :=
  match w with
  | O => k
  | S w' => pad w' (n / 10) (String (digit (n mod 10)) k)
  end.

(** Four digits for the years 0 to 9999, a sign and six digits beyond. *)
Definition year_string (y : Z) (k : string) : string :=
  if (0 <=? y) && (y <=? 9999) then pad 4 y k
  else if 0 <=? y then String "+" (pad 6 y k)
  else String "-" (pad 6 (- y) k).

(** [YYYY-MM-DDTHH:mm:ss.sssZ], in UTC. *)
Definition toISOString (t : Z) : string :=
  year_string (YearFromTime t)
    (String "-" (pad 2 (MonthFromTime t + 1)
    (String "-" (pad 2 (DateFromTime t)
    (String "T" (pad 2 (HourFromTime t)
    (String ":" (pad 2 (MinFromTime t)
    (String ":" (pad 2 (SecFromTime t)
    (String "." (pad 3 (msFromTime t) "Z")))))))))))).

End DateTime.

(** [s.replace(/:/g, "-")]: every colon becomes a hyphen. *)
Fixpoint replace_colons (s : string) : string :=
  match s with
  | EmptyString => EmptyString
  | String c s' =>
      String (if Ascii.eqb c ":" then "-"%char else c) (replace_colons s')
  end.

(** ** Requests, responses and the per-request context *)

Inductive method := GET | HEAD | OPTIONS | POST | PUT | PATCH | DELETE.

(** The file object multer hands to its callbacks. *)
Record file := {
  fieldname : string;
  originalname : string;
  mimetype : string;
}.

(** A file part of a multipart body: the file object and its bytes. *)
Record part := {
  part_file : file;
  part_data : string;
}.

(** The request body as it arrives. *)
Inductive content :=
  | Plain
  | Form (fields : gmap string string)
  | BadForm
  | Multipart (fields : gmap string string) (upload : option part).

Record request := {
  r_method : method;
  r_url : string;
  r_content : content;
  (** a [_csrf] query parameter or one of the CSRF headers *)
  r_token : option string;
  (** the session id of a correctly signed session cookie *)
  r_sid : option string;
}.

(** What multer leaves in [req.file]. *)
Record stored := {
  s_file : file;
  s_destination : string;
  s_filename : string;
  s_path : string;
}.

Inductive payload :=
  | Rendered (view : string) (options : gmap string JS.value)
  | Sent (body : JS.value)
  | Raw (text : string).

Record response := {
  status : Z;
  sent : payload;
}.

(** [req] and [res] as the middleware see and mutate them, together with
    the files on disk. *)
Record ctx := {
  req : request;
  req_body : gmap string string;
  req_file : option stored;
  req_session : JS.value;
  req_user : JS.value;
  req_csrfToken : bool;
  req_flash : bool;
  res_locals : gmap string JS.value;
  disk : gmap string string;
}.

Definition set_body (b : gmap string string) (c : ctx) : ctx :=
  {| req := req c; req_body := b; req_file := req_file c;
     req_session := req_session c; req_user := req_user c;
     req_csrfToken := req_csrfToken c; req_flash := req_flash c;
     res_locals := res_locals c; disk := disk c |}.

Definition set_file (f : option stored) (c : ctx) : ctx :=
  {| req := req c; req_body := req_body c; req_file := f;
     req_session := req_session c; req_user := req_user c;
     req_csrfToken := req_csrfToken c; req_flash := req_flash c;
     res_locals := res_locals c; disk := disk c |}.

Definition set_session (s : JS.value) (c : ctx) : ctx :=
  {| req := req c; req_body := req_body c; req_file := req_file c;
     req_session := s; req_user := req_user c;
     req_csrfToken := req_csrfToken c; req_flash := req_flash c;
     res_locals := res_locals c; disk := disk c |}.

Definition set_user (u : JS.value) (c : ctx) : ctx :=
  {| req := req c; req_body := req_body c; req_file := req_file c;
     req_session := req_session c; req_user := u;
     req_csrfToken := req_csrfToken c; req_flash := req_flash c;
     res_locals := res_locals c; disk := disk c |}.

Definition set_csrfToken (b : bool) (c : ctx) : ctx :=
  {| req := req c; req_body := req_body c; req_file := req_file c;
     req_session := req_session c; req_user := req_user c;
     req_csrfToken := b; req_flash := req_flash c;
     res_locals := res_locals c; disk := disk c |}.

Definition set_flash (b : bool) (c : ctx) : ctx :=
  {| req := req c; req_body := req_body c; req_file := req_file c;
     req_session := req_session c; req_user := req_user c;
     req_csrfToken := req_csrfToken c; req_flash := b;
     res_locals := res_locals c; disk := disk c |}.

Definition set_local (k : string) (v : JS.value) (c : ctx) : ctx :=
  {| req := req c; req_body := req_body c; req_file := req_file c;
     req_session := req_session c; req_user := req_user c;
     req_csrfToken := req_csrfToken c; req_flash := req_flash c;
     res_locals := <[k := v]> (res_locals c); disk := disk c |}.

Definition write_file (path data : string) (c : ctx) : ctx :=
  {| req := req c; req_body := req_body c; req_file := req_file c;
     req_session := req_session c; req_user := req_user c;
     req_csrfToken := req_csrfToken c; req_flash := req_flash c;
     res_locals := res_locals c; disk := <[path := data]> (disk c) |}.

(** How a middleware function ends: [next()], [next(err)] (or a throw,
    which Express turns into it), or a finished response. *)
Inductive outcome :=
  | Next (c : ctx)
  | Raise (e : JS.exn) (c : ctx)
  | Respond (r : response) (c : ctx).

(** ** The world outside the bootstrap *)

(** The answer of [store.get(sid, cb)]: the session data, none (which
    is also how the library reads an [ENOENT] error), or an error. *)
Inductive store_reply :=
  | Found (sess : gmap string JS.value)
  | Missing
  | StoreError (e : JS.exn).

(** The promise returned by [User.findById]. *)
Inductive lookup :=
  | Resolved (user : JS.value)
  | Rejected (err : JS.exn).

Record env := {
  (** the reading of [new Date()] when a file name is made *)
  now : Z;
  (** the readings of [Date.now()] when the cookie of a fresh session
      gets its expiry date, and when its age is read back *)
  cookie_set : Z;
  cookie_read : Z;
  (** [express.static]: the file under a root for a request path *)
  static_file : string -> string -> option string;
  (** Express's matching of a mount prefix and of a route path *)
  mounted : string -> string -> bool;
  route_match : string -> string -> bool;
  (** the session store *)
  store_ready : bool;
  store_get : string -> store_reply;
  (** the token library behind csurf *)
  secretSync : string;
  tokens_create : string -> string;
  tokens_verify : string -> string -> bool;
  (** the user model *)
  findById : JS.value -> lookup;
  (** the three routers *)
  adminRoutes : ctx -> outcome;
  shopRoutes : ctx -> outcome;
  authRoutes : ctx -> outcome;
}.

(** ** Upload configuration (lines 31-54) *)

(** A node-style callback invocation [cb(err, value)]. *)
Inductive callback (A : Type) :=
  | Cb (err : option JS.exn) (val : A).
Arguments Cb {A} err val.

(** [fileStorage.destination]. *)
Definition destination (f : file) : callback string := Cb None "images".

(** [fileStorage.filename], at clock reading [t]. *)
Definition filename (t : Z) (f : file) : callback string :=
  Cb None (replace_colons (DateTime.toISOString t) +:+ "-" +:+ originalname f).

Definition fileFilter (f : file) : callback bool :=
  if String.eqb (mimetype f) "image/png"
     || String.eqb (mimetype f) "image/jpg"
     || String.eqb (mimetype f) "image/jpeg"
  then Cb None true
  else Cb None false.

(** ** The library middleware, as far as the bootstrap relies on them *)

(** [diskStorage._handleFile]: ask for the directory, then for the name,
    then write the bytes to [directory/name]; an existing file of that
    path is overwritten.  The write itself is taken to succeed. *)
Definition handleFile (t : Z) (p : part) (c : ctx) : JS.exn + ctx :=
  match destination (part_file p) with
  | Cb (Some e) _ => inl e
  | Cb None dir =>
      match filename t (part_file p) with
      | Cb (Some e) _ => inl e
      | Cb None name =>
          let path := dir +:+ "/" +:+ name in
          inr (set_file
                 (Some {| s_file := part_file p; s_destination := dir;
                          s_filename := name; s_path := path |})
                 (write_file path (part_data p) c))
      end
  end.

(** [multer({ storage, fileFilter }).single(field)]: only multipart bodies
    are looked at; a part without a file name is skipped, a file under
    another field is refused, and the filter decides about the rest. *)
Definition multer_single (field : string) (E : env) (c : ctx) : outcome :=
  match r_content (req c) with
  | Multipart fields up =>
      let c0 := set_body fields c in
      match up with
      | None => Next c0
      | Some p =>
          if String.eqb (originalname (part_file p)) "" then Next c0
          else if negb (String.eqb (fieldname (part_file p)) field)
          then Raise (JS.MulterError "LIMIT_UNEXPECTED_FILE"
                       "Unexpected field" (fieldname (part_file p))) c0
          else
            match fileFilter (part_file p) with
            | Cb (Some e) _ => Raise e c0
            | Cb None false => Next c0
            | Cb None true =>
                match handleFile (now E) p c0 with
                | inl e => Raise e c0
                | inr c1 => Next c1
                end
            end
      end
  | _ => Next c
  end.

(** [bodyParser.urlencoded]. *)
Definition urlencoded (c : ctx) : outcome :=
  match r_content (req c) with
  | Form fields => Next (set_body fields c)
  | BadForm => Raise (JS.HttpError 400 "BadRequestError" "Bad Request") c
  | _ => Next c
  end.

(** [express.static(root)]: answers GET and HEAD for a file that exists,
    GET with the file and HEAD with its headers and no body, and passes
    everything else on.  Requests carry no conditions or ranges here,
    and [static_file] stands for the regular files the layer finds:
    paths that name a directory are not among the requests considered. *)
Definition serve_static (root : string) (E : env) (c : ctx) : outcome :=
  match r_method (req c) with
  | GET =>
      match static_file E root (r_url (req c)) with
      | Some text => Respond {| status := 200; sent := Raw text |} c
      | None => Next c
      end
  | HEAD =>
      match static_file E root (r_url (req c)) with
      | Some _ => Respond {| status := 200; sent := Raw "" |} c
      | None => Next c
      end
  | _ => Next c
  end.

Inductive store_lib :=
  | MongoDBStore (uri databaseName collection : string) (tls : bool)
  | MongoStore (mongoUrl dbName : string).

Record session_options := {
  secret : string;
  resave : bool;
  saveUninitialized : bool;
  store : store_lib;
  cookie_maxAge : option Z;
}.

(** The cookie of a fresh session ([new Cookie(options.cookie)]): with
    a [maxAge], [expires] is the date that far from the clock reading
    [t1], and [originalMaxAge] is what is left of it at the reading
    [t2]; without one both are [null]. *)
Definition new_cookie (o : session_options) (t1 t2 : Z) : JS.value :=
  JS.VObj
    (<[ "originalMaxAge" :=
          match cookie_maxAge o with
          | Some m => JS.VNum (t1 + m - t2)
          | None => JS.VNull
          end ]>
     (<[ "expires" :=
          match cookie_maxAge o with
          | Some m => JS.VDate (t1 + m)
          | None => JS.VNull
          end ]>
     (<[ "httpOnly" := JS.VBool true ]>
     {[ "path" := JS.VStr "/" ]}))).

(** A fresh session: only its cookie. *)
Definition new_session (o : session_options) (E : env) : JS.value :=
  JS.VObj {[ "cookie" := new_cookie o (cookie_set E) (cookie_read E) ]}.

(** [session(options)]: with the store disconnected the request goes on
    without a session; otherwise the session named by the cookie is
    loaded, and a fresh one is made when there is none. *)
Definition session_mw (o : session_options) (E : env) (c : ctx) : outcome :=
  if JS.truthy (req_session c) then Next c
  else if negb (store_ready E) then Next c
  else
    match r_sid (req c) with
    | None => Next (set_session (new_session o E) c)
    | Some sid =>
        match store_get E sid with
        | StoreError e => Raise e c
        | Missing => Next (set_session (new_session o E) c)
        | Found s => Next (set_session (JS.VObj s) c)
        end
    end.

(** csurf's [value(req)]: the [_csrf] body field, else query or header. *)
Definition csrf_value (c : ctx) : option string :=
  match req_body c !! "_csrf" with
  | Some t => if String.eqb t "" then r_token (req c) else Some t
  | None => r_token (req c)
  end.

Definition ignoreMethod (m : method) : bool :=
  match m with
  | GET | HEAD | OPTIONS => true
  | _ => false
  end.

(** [tokens.verify(secret, token)]. *)
Definition verify (E : env) (sec : JS.value) (tok : option string) : bool :=
  match sec, tok with
  | JS.VStr s, Some t =>
      negb (String.eqb s "") && negb (String.eqb t "") && tokens_verify E s t
  | _, _ => false
  end.

(** [tokens.create(secret)]. *)
Definition create (E : env) (sec : JS.value) : JS.exn + string :=
  match sec with
  | JS.VStr s =>
      if String.eqb s "" then inl (JS.TypeError "argument secret is required")
      else inr (tokens_create E s)
  | _ => inl (JS.TypeError "argument secret is required")
  end.

(** [csrf()] in session mode: it needs [req.session], installs
    [req.csrfToken], makes a secret when the session has none, and
    checks the submitted token on every method but GET, HEAD, OPTIONS. *)
Definition csrfProtection (E : env) (c : ctx) : outcome :=
  if negb (JS.truthy (req_session c)) then Raise (JS.Error "misconfigured csrf") c
  else
    let sec := JS.opt_get (req_session c) "csrfSecret" in
    let c1 := set_csrfToken true c in
    let sec' := if JS.truthy sec then sec else JS.VStr (secretSync E) in
    let c2 :=
      if JS.truthy sec then c1
      else set_session (JS.set (req_session c) "csrfSecret" sec') c1 in
    if negb (ignoreMethod (r_method (req c))) && negb (verify E sec' (csrf_value c))
    then Raise (JS.HttpError 403 "ForbiddenError" "invalid csrf token") c2
    else Next c2.

(** The first call of [req.csrfToken()] in a request. *)
Definition call_csrfToken (E : env) (c : ctx) : JS.exn + (string * ctx) :=
  if negb (req_csrfToken c) then inl (JS.TypeError "req.csrfToken is not a function")
  else if negb (JS.truthy (req_session c)) then inl (JS.Error "misconfigured csrf")
  else
    match JS.opt_get (req_session c) "csrfSecret" with
    | JS.VUndef =>
        let sec := JS.VStr (secretSync E) in
        match create E sec with
        | inl e => inl e
        | inr tok =>
            inr (tok, set_session (JS.set (req_session c) "csrfSecret" sec) c)
        end
    | sec =>
        match create E sec with
        | inl e => inl e
        | inr tok => inr (tok, c)
        end
    end.

(** [flash()]. *)
Definition flash (c : ctx) : outcome := Next (set_flash true c).

(** ** The bootstrap's own middleware *)

(** [req.session?.isLoggedIn || false], the expression of lines 99 and
    135, as a function of [req.session]. *)
Definition isAuthenticated (session : JS.value) : JS.value :=
  JS.or (JS.opt_get session "isLoggedIn") (JS.VBool false).

(** Lines 98-102. *)
Definition setLocals (E : env) (c : ctx) : outcome :=
  let c1 := set_local "isAuthenticated" (isAuthenticated (req_session c)) c in
  match call_csrfToken E c1 with
  | inl e => Raise e c1
  | inr (tok, c2) => Next (set_local "csrfToken" (JS.VStr tok) c2)
  end.

(** Lines 105-120. *)
Definition setUser (E : env) (c : ctx) : outcome :=
  match JS.get (req_session c) "user" with
  | inl e => Raise e c
  | inr u =>
      if JS.not u then Next c
      else
        match JS.get u "_id" with
        | inl e => Raise e c
        | inr id =>
            match findById E id with
            | Resolved user =>
                if JS.not user then Next c
                else Next (set_user user c)
            | Rejected err => Raise (JS.Error (JS.to_string err)) c
            end
        end
  end.

(** Modelled from the spec: [errorController.get404] lives in
    [controllers/error.js], which is not part of the source at hand.  The
    spec describes it as the catch-all for unmatched routes that renders
    the not-found page, with a [pageTitle] saying so; it ends the request
    and never calls [next]. *)
Definition get404 (c : ctx) : outcome :=
  Respond
    {| status := 404;
       sent := Rendered "404" {[ "pageTitle" := JS.VStr "Page Not Found" ]} |}
    c.

(** Lines 131-137. *)
Definition error500 (error : JS.exn) (c : ctx) : outcome :=
  Respond
    {| status := 500;
       sent :=
         Rendered "500"
           (<[ "pageTitle" := JS.VStr "Error!" ]>
           (<[ "path" := JS.VStr "/500" ]>
           {[ "isAuthenticated" := isAuthenticated (req_session c) ]})) |}
    c.

(** Lines 153-156. *)
Definition debugSession (c : ctx) : outcome :=
  Respond {| status := 200; sent := Sent (req_session c) |} c.

(** ** Express: the stack of layers and how a request walks it *)

(** The functions handed to [app.use] and [app.get]. *)
Inductive middleware :=
  | Helmet
  | Compression
  | Morgan (format : string) (stream : string)
  | UrlEncoded (extended : bool)
  | MulterSingle (field : string)
  | Static (root : string)
  | Session (o : session_options)
  | CsrfProtection
  | Flash
  | SetLocals
  | SetUser
  | AdminRoutes
  | ShopRoutes
  | AuthRoutes
  | Get404
  | Error500
  | DebugSession.

(** [app.use(fn)], [app.use(prefix, fn)] and [app.get(path, fn)]. *)
Inductive registration :=
  | Use (mw : middleware)
  | UseAt (prefix : string) (mw : middleware)
  | Get (path : string) (mw : middleware).

Definition mw_of (r : registration) : middleware :=
  match r with
  | Use mw | UseAt _ mw | Get _ mw => mw
  end.

(** A function of three arguments handles requests, one of four handles
    errors. *)
Inductive handler :=
  | Normal (h : ctx -> outcome)
  | OnError (h : JS.exn -> ctx -> outcome).

Definition handle (E : env) (mw : middleware) : handler :=
  match mw with
  | Helmet | Compression | Morgan _ _ => Normal Next
  | UrlEncoded _ => Normal urlencoded
  | MulterSingle field => Normal (multer_single field E)
  | Static root => Normal (serve_static root E)
  | Session o => Normal (session_mw o E)
  | CsrfProtection => Normal (csrfProtection E)
  | Flash => Normal flash
  | SetLocals => Normal (setLocals E)
  | SetUser => Normal (setUser E)
  | AdminRoutes => Normal (adminRoutes E)
  | ShopRoutes => Normal (shopRoutes E)
  | AuthRoutes => Normal (authRoutes E)
  | Get404 => Normal get404
  | Error500 => OnError error500
  | DebugSession => Normal debugSession
  end.

(** Whether a layer is considered for the request at all. *)
Definition applies (E : env) (r : registration) (c : ctx) : bool :=
  match r with
  | Use _ => true
  | UseAt prefix _ => mounted E prefix (r_url (req c))
  | Get path _ =>
      match r_method (req c) with
      | GET | HEAD => route_match E path (r_url (req c))
      | _ => false
      end
  end.

(** The layers that ran, each with the context it was entered with. *)
Definition trace := list (middleware * ctx).

(** Where a walk over part of the stack stands: answered, or still
    looking for a layer, with or without an error in hand. *)
Inductive progress :=
  | Answered (tr : trace) (r : response) (c : ctx)
  | Pending (tr : trace) (err : option JS.exn) (c : ctx).

Definition visited (p : progress) : trace :=
  match p with
  | Answered tr _ _ | Pending tr _ _ => tr
  end.

Definition enter (x : middleware * ctx) (p : progress) : progress :=
  match p with
  | Answered tr r c => Answered (x :: tr) r c
  | Pending tr err c => Pending (x :: tr) err c
  end.

(** [router.handle]'s [next]: layers are tried in the order they were
    registered; while an error is in hand only error handlers are
    called, and without one only the others. *)
Fixpoint walk (E : env) (stack : list registration) (err : option JS.exn)
    (c : ctx) : progress :=
  match stack with
  | [] => Pending [] err c
  | r :: rest =>
      if applies E r c then
        match handle E (mw_of r), err with
        | Normal h, None =>
            enter (mw_of r, c)
              match h c with
              | Next c' => walk E rest None c'
              | Raise e c' => walk E rest (Some e) c'
              | Respond rs c' => Answered [] rs c'
              end
        | OnError h, Some e =>
            enter (mw_of r, c)
              match h e c with
              | Next c' => walk E rest None c'
              | Raise e' c' => walk E rest (Some e') c'
              | Respond rs c' => Answered [] rs c'
              end
        | _, _ => walk E rest err c
        end
      else walk E rest err c
  end.

Record result := {
  ran : trace;
  reply : response;
  final : ctx;
}.

(** [finalhandler]: what Express answers when the stack is exhausted. *)
Definition finalhandler (err : option JS.exn) : response :=
  match err with
  | None => {| status := 404; sent := Raw "Not Found" |}
  | Some (JS.HttpError st _ _) => {| status := st; sent := Raw "Error" |}
  | Some _ => {| status := 500; sent := Raw "Internal Server Error" |}
  end.

Definition dispatch (E : env) (stack : list registration)
    (err : option JS.exn) (c : ctx) : result :=
  match walk E stack err c with
  | Answered tr r c' => {| ran := tr; reply := r; final := c' |}
  | Pending tr err' c' => {| ran := tr; reply := finalhandler err'; final := c' |}
  end.

Definition stages (tr : trace) : list middleware := map fst tr.

(** ** The two bootstraps *)

Record bootstrap := {
  view_engine : string;
  views : string;
  stack : list registration;
  connect_options : list (string * bool);
  default_port : Z;
}.

(** Lines 1-156.  [process.env.MONGODB_URI] is named, not read. *)
Definition variant1 : bootstrap :=
  {| view_engine := "ejs";
     views := "views";
     stack :=
       [ Use Helmet;
         Use Compression;
         Use (Morgan "combined" "access.log");
         Use (UrlEncoded false);
         Use (MulterSingle "image");
         Use (Static "public");
         UseAt "/images" (Static "images");
         Use (Session
                {| secret := "my secret";
                   resave := false;
                   saveUninitialized := false;
                   store := MongoDBStore "MONGODB_URI" "shop" "sessions" true;
                   cookie_maxAge := Some (1000 * 60 * 60 * 24) |});
         Use CsrfProtection;
         Use Flash;
         Use SetLocals;
         Use SetUser;
         UseAt "/admin" AdminRoutes;
         Use ShopRoutes;
         Use AuthRoutes;
         Use Get404;
         Use Error500;
         Get "/debug-session" DebugSession ];
     connect_options := [("useNewUrlParser", true); ("useUnifiedTopology", true)];
     default_port := 3001 |}.

(** Lines 157-301. *)
Definition variant2 : bootstrap :=
  {| view_engine := "ejs";
     views := "views";
     stack :=
       [ Use Helmet;
         Use Compression;
         Use (Morgan "combined" "access.log");
         Use (UrlEncoded false);
         Use (MulterSingle "image");
         Use (Static "public");
         UseAt "/images" (Static "images");
         Use (Session
                {| secret := "my secret";
                   resave := false;
                   saveUninitialized := false;
                   store := MongoStore "MONGODB_URI" "hop";
                   cookie_maxAge := None |});
         Use CsrfProtection;
         Use Flash;
         Use SetLocals;
         Use SetUser;
         UseAt "/admin" AdminRoutes;
         Use ShopRoutes;
         Use AuthRoutes;
         Use Get404;
         Use Error500;
         Get "/debug-session" DebugSession ];
     connect_options := [];
     default_port := 3000 |}.

(** The context a request starts with, over the files already on disk. *)
Definition init (r : request) (files : gmap string string) : ctx :=
  {| req := r; req_body := ∅; req_file := None;
     req_session := JS.VUndef; req_user := JS.VUndef;
     req_csrfToken := false; req_flash := false;
     res_locals := ∅; disk := files |}.

Definition run (b : bootstrap) (E : env) (r : request)
    (files : gmap string string) : result :=
  dispatch E (stack b) None (init r files).

(** ** A small world to run the pipeline in *)

Module Sample.

Definition alice : JS.value := JS.VObj {[ "_id" := JS.VStr "u1" ]}.

(** One stored session, of a logged-in user with a CSRF secret. *)
Definition stored_session : gmap string JS.value :=
  <[ "cookie" :=
       JS.VObj
         (<[ "originalMaxAge" := JS.VNum 86400000 ]>
          (<[ "expires" := JS.VDate 1730680000000 ]>
          (<[ "httpOnly" := JS.VBool true ]>
          {[ "path" := JS.VStr "/" ]}))) ]>
  (<[ "isLoggedIn" := JS.VBool true ]>
  (<[ "user" := alice ]>
  {[ "csrfSecret" := JS.VStr "k" ]})).

(** No static files, routers without a matching route, a store holding
    the session ["s1"], tokens of the shape [salt-secret]. *)
Definition world : env :=
  {| now := 1730601296789;
     cookie_set := 1730601296791;
     cookie_read := 1730601296791;
     static_file := fun _ _ => None;
     mounted := String.prefix;
     route_match := String.eqb;
     store_ready := true;
     store_get := fun sid =>
       if String.eqb sid "s1" then Found stored_session else Missing;
     secretSync := "fresh";
     tokens_create := fun s => "salt-" +:+ s;
     tokens_verify := fun s t => String.eqb t ("salt-" +:+ s);
     findById := fun id =>
       match id with
       | JS.VStr "u1" => Resolved alice
       | _ => Resolved JS.VNull
       end;
     adminRoutes := Next;
     shopRoutes := Next;
     authRoutes := Next |}.

Definition get_debug : request :=
  {| r_method := GET; r_url := "/debug-session"; r_content := Plain;
     r_token := None; r_sid := Some "s1" |}.

Definition post_without_token : request :=
  {| r_method := POST; r_url := "/admin/add-product";
     r_content := Form ∅; r_token := None; r_sid := Some "s1" |}.

Definition gif : part :=
  {| part_file := {| fieldname := "image"; originalname := "cat.gif";
                     mimetype := "image/gif" |};
     part_data := "GIF89a" |}.

Definition png : part :=
  {| part_file := {| fieldname := "image"; originalname := "cat.png";
                     mimetype := "image/png" |};
     part_data := "PNG" |}.

Definition post_upload (p : part) : request :=
  {| r_method := POST; r_url := "/admin/add-product";
     r_content := Multipart {[ "_csrf" := "salt-k" ]} (Some p);
     r_token := None; r_sid := Some "s1" |}.

(** The context in which the sample GET request reaches user attachment:
    the stored session, the token function installed, flash available
    and the two view locals set. *)
Definition at_user_attachment : ctx :=
  {| req := get_debug; req_body := ∅; req_file := None;
     req_session := JS.VObj stored_session; req_user := JS.VUndef;
     req_csrfToken := true; req_flash := true;
     res_locals :=
       <[ "csrfToken" := JS.VStr "salt-k" ]>
       (<[ "isAuthenticated" := JS.VBool true ]> ∅);
     disk := ∅ |}.

End Sample.

(** ** Vocabulary of the properties *)

(** The three route groups. *)
Definition is_route (mw : middleware) : bool :=
  match mw with
  | AdminRoutes | ShopRoutes | AuthRoutes => true
  | _ => false
  end.

(** The first route group a request entered, with the context it saw. *)
Definition route_entry (tr : trace) : option (middleware * ctx) :=
  find (fun x => is_route (fst x)) tr.

(** A status of the 4xx class. *)
Definition client_error (rs : response) : Prop := 400 <= status rs < 500.

(** The media types the upload contract names. *)
Definition image_types : list string := ["image/png"; "image/jpg"; "image/jpeg"].

(** The CSRF token a request submits: the [_csrf] field of its body,
    else the query parameter or header. *)
Definition submitted (r : request) : option string :=
  match r_content r with
  | Form fields | Multipart fields _ =>
      match fields !! "_csrf" with
      | Some t => if String.eqb t "" then r_token r else Some t
      | None => r_token r
      end
  | _ => r_token r
  end.

(** The secret bound to the request's session: the stored one, or the
    one made for a session that has none yet. *)
Definition bound_secret (E : env) (r : request) : JS.value :=
  match r_sid r with
  | Some sid =>
      match store_get E sid with
      | Found s =>
          if JS.truthy (default JS.VUndef (s !! "csrfSecret"))
          then default JS.VUndef (s !! "csrfSecret")
          else JS.VStr (secretSync E)
      | _ => JS.VStr (secretSync E)
      end
  | None => JS.VStr (secretSync E)
  end.

Definition token_valid (E : env) (r : request) : bool :=
  verify E (bound_secret E r) (submitted r).

(** The order of stages as the specification lists it; stages it does
    not name have no rank. *)
Definition spec_rank (mw : middleware) : option nat :=
  match mw with
  | Compression => Some 0%nat
  | Morgan _ _ => Some 1%nat
  | UrlEncoded _ | MulterSingle _ => Some 2%nat
  | Session _ => Some 3%nat
  | SetUser => Some 4%nat
  | CsrfProtection => Some 5%nat
  | Flash => Some 6%nat
  | AdminRoutes | ShopRoutes | AuthRoutes => Some 7%nat
  | Get404 | Error500 => Some 8%nat
  | _ => None
  end.

Fixpoint nondecreasing (l : list nat) : bool :=
  match l with
  | a :: (b :: _) as l' => (a <=? b)%nat && nondecreasing l'
  | _ => true
  end.

Definition in_spec_order (tr : trace) : bool :=
  nondecreasing (omap spec_rank (stages tr)).

(** Two clock readings in the same second. *)
Definition same_second (t t' : Z) : Prop :=
  t / DateTime.msPerSecond = t' / DateTime.msPerSecond.

(** The name given to an upload, out of its callback. *)
Definition generated_name (t : Z) (f : file) : string :=
  match filename t f with
  | Cb _ name => name
  end.

(** The session of a request is already in the store. *)
Definition established (E : env) (r : request) : Prop :=
  exists sid s, r_sid r = Some sid /\ store_get E sid = Found s.

(** Comparing bootstraps up to chosen parts of their configuration. *)
Definition on_session (f : session_options -> session_options)
    (mw : middleware) : middleware :=
  match mw with
  | Session o => Session (f o)
  | _ => mw
  end.

Definition map_session (f : session_options -> session_options)
    (r : registration) : registration :=
  match r with
  | Use mw => Use (on_session f mw)
  | UseAt p mw => UseAt p (on_session f mw)
  | Get p mw => Get p (on_session f mw)
  end.

Definition forget_store (o : session_options) : session_options :=
  {| secret := secret o; resave := resave o;
     saveUninitialized := saveUninitialized o;
     store := MongoStore "" ""; cookie_maxAge := cookie_maxAge o |}.

Definition forget_maxAge (o : session_options) : session_options :=
  {| secret := secret o; resave := resave o;
     saveUninitialized := saveUninitialized o;
     store := store o; cookie_maxAge := None |}.

Definition forget_all (o : session_options) : session_options :=
  forget_maxAge (forget_store o).

(** A trace with the configuration of its session layer blanked. *)
Definition blur (tr : trace) : trace :=
  map (fun x => (on_session forget_all (fst x), snd x)) tr.

(** Up to the session-store library and the database connection options. *)
Definition modulo_store_and_connection (b : bootstrap) : bootstrap :=
  {| view_engine := view_engine b; views := views b;
     stack := map (map_session forget_store) (stack b);
     connect_options := [];
     default_port := default_port b |}.

(** Up to those, the session cookie's [maxAge] and the default port. *)
Definition modulo_store_connection_cookie_port (b : bootstrap) : bootstrap :=
  {| view_engine := view_engine b; views := views b;
     stack := map (map_session forget_all) (stack b);
     connect_options := [];
     default_port := 0 |}.

(** The session options a bootstrap registers. *)
Definition session_options_of (b : bootstrap) : list session_options :=
  omap (fun r => match mw_of r with Session o => Some o | _ => None end) (stack b).

(** ** Auxiliary definitions for the proofs *)

(** Linear arithmetic with division and remainder by constants. *)
Ltac zdiv := Z.div_mod_to_equations; lia.

(** Days before the first of month [m] (0-based), [l] being 1 in a leap
    year. *)
Definition month_offset (m l : Z) : Z :=
  match m with
  | 0 => 0 | 1 => 31 | 2 => 59 + l | 3 => 90 + l | 4 => 120 + l
  | 5 => 151 + l | 6 => 181 + l | 7 => 212 + l | 8 => 243 + l
  | 9 => 273 + l | 10 => 304 + l | _ => 334 + l
  end.

Definition undigit (c : ascii) : Z := Z.of_nat (nat_of_ascii c) - 48.

(** [toISOString] with the separator of the time fields as a parameter,
    followed by [k]. *)
Definition stamp (sep : ascii) (t : Z) (k : string) : string :=
  DateTime.year_string (DateTime.YearFromTime t)
    (String "-" (DateTime.pad 2 (DateTime.MonthFromTime t + 1)
    (String "-" (DateTime.pad 2 (DateTime.DateFromTime t)
    (String "T" (DateTime.pad 2 (DateTime.HourFromTime t)
    (String sep (DateTime.pad 2 (DateTime.MinFromTime t)
    (String sep (DateTime.pad 2 (DateTime.SecFromTime t)
    (String "." (DateTime.pad 3 (DateTime.msFromTime t)
    (String "Z" k))))))))))))).

(** The stack of both bootstraps in parts: up to the session middleware,
    from the CSRF check to the view locals, user attachment, and the
    rest. *)
Definition front : list registration :=
  [ Use Helmet; Use Compression; Use (Morgan "combined" "access.log");
    Use (UrlEncoded false); Use (MulterSingle "image");
    Use (Static "public"); UseAt "/images" (Static "images") ].

Definition checks : list registration :=
  [ Use CsrfProtection; Use Flash; Use SetLocals ].

Definition middle : list registration := checks ++ [ Use SetUser ].

Definition back : list registration :=
  [ UseAt "/admin" AdminRoutes; Use ShopRoutes; Use AuthRoutes;
    Use Get404; Use Error500; Get "/debug-session" DebugSession ].

(** Putting a stretch of trace in front of what follows. *)
Definition after (tr : trace) (p : progress) : progress :=
  match p with
  | Answered tr' r c => Answered (tr ++ tr')%list r c
  | Pending tr' err c => Pending (tr ++ tr')%list err c
  end.

(** Walking [l1] and, if nothing answered, going on with [k]. *)
Definition and_then (p : progress)
    (k : option JS.exn -> ctx -> progress) : progress :=
  match p with
  | Answered tr r c => Answered tr r c
  | Pending tr err c => after tr (k err c)
  end.

(** What the first seven layers leave behind when they pass a request on
    without an error. *)
Definition untouched (r : request) (c : ctx) : Prop :=
  req c = r /\ req_session c = JS.VUndef /\ req_csrfToken c = false /\
  csrf_value c = submitted r.

(** What the view locals hold once the locals middleware has run. *)
Definition locals_set (E : env) (c : ctx) : Prop :=
  res_locals c !! "isAuthenticated" = Some (isAuthenticated (req_session c)) /\
  exists tok,
    res_locals c !! "csrfToken" = Some (JS.VStr tok) /\
    create E (JS.opt_get (req_session c) "csrfSecret") = inr tok.

(** The session options of the first bootstrap. *)
Definition variant1_session : session_options :=
  {| secret := "my secret"; resave := false; saveUninitialized := false;
     store := MongoDBStore "MONGODB_URI" "shop" "sessions" true;
     cookie_maxAge := Some 86400000 |}.

(** The session options of the second bootstrap. *)
Definition variant2_session : session_options :=
  {| secret := "my secret"; resave := false; saveUninitialized := false;
     store := MongoStore "MONGODB_URI" "hop";
     cookie_maxAge := None |}.

(** The page of the 500 handler for a context. *)
Definition page500 (c : ctx) : response :=
  {| status := 500;
     sent :=
       Rendered "500"
         (<[ "pageTitle" := JS.VStr "Error!" ]>
         (<[ "path" := JS.VStr "/500" ]>
         {[ "isAuthenticated" := isAuthenticated (req_session c) ]})) |}.

(** ** Further vocabulary: what the layers before the routes keep *)

(** Case analysis of a handler that leaves parts of the context alone. *)
Ltac quiet_step :=
  repeat case_match; simplify_eq; repeat split; cbn; try tauto; try congruence.

(** The context a walk ends or stands with. *)
Definition standing (p : progress) : ctx :=
  match p with
  | Answered _ _ c | Pending _ _ c => c
  end.

(** A layer keeps [P]: whatever way it ends, the context it leaves
    satisfies [P] if the one it was entered with did. *)
Definition keeps (E : env) (P : ctx -> Prop) (mw : middleware) : Prop :=
  match handle E mw with
  | Normal h =>
      forall c, P c ->
        match h c with
        | Next c' | Raise _ c' | Respond _ c' => P c'
        end
  | OnError h =>
      forall e c, P c ->
        match h e c with
        | Next c' | Raise _ c' | Respond _ c' => P c'
        end
  end.

(** The layers of the first bootstrap before the route groups. *)
Definition pre_routes : list registration :=
  front ++ [Use (Session variant1_session)] ++ middle.

(** Same request, same attached file, same files on disk. *)
Definition same_upload (c c' : ctx) : Prop :=
  req c' = req c /\ req_file c' = req_file c /\ disk c' = disk c.

(** What multer leaves in [req.file] for an accepted part stored at
    clock reading [t]. *)
Definition stored_as (t : Z) (p : part) : stored :=
  {| s_file := part_file p; s_destination := "images";
     s_filename := generated_name t (part_file p);
     s_path := "images/" +:+ generated_name t (part_file p) |}.

(** A string with a colon in it. *)
Definition has_colon (s : string) : Prop :=
  ":"%char ∈ list_ascii_of_string s.

(** The clock readings of the years 0 to 9999. *)
Definition four_digit_year (t : Z) : Prop :=
  -62167219200000 <= t < 253402300800000.

(** The session csurf leaves behind for stored session data [s]: the
    data itself when it holds a secret, else with a fresh secret. *)
Definition with_secret (E : env) (s : gmap string JS.value)
    : gmap string JS.value :=
  if JS.truthy (default JS.VUndef (s !! "csrfSecret")) then s
  else <[ "csrfSecret" := JS.VStr (secretSync E) ]> s.

(** The layers up to and including the upload middleware. *)
Definition ingress : list registration :=
  [ Use Helmet; Use Compression; Use (Morgan "combined" "access.log");
    Use (UrlEncoded false); Use (MulterSingle "image") ].

(** The two static directories. *)
Definition statics : list registration :=
  [ Use (Static "public"); UseAt "/images" (Static "images") ].

(** What the upload middleware has done for request [r] over the files
    [files]: nothing, or stored the accepted image part of the request. *)
Definition upload_state (E : env) (r : request) (files : gmap string string)
    (c : ctx) : Prop :=
  (req_file c = None /\ disk c = files) \/
  exists fields p,
    r_content r = Multipart fields (Some p) /\
    fieldname (part_file p) = "image" /\
    originalname (part_file p) <> "" /\
    mimetype (part_file p) ∈ image_types /\
    req_file c = Some (stored_as (now E) p) /\
    disk c = <[ s_path (stored_as (now E) p) := part_data p ]> files.



(** ** More sample requests and worlds *)

Module Cases.



(** The sample world with a user lookup that fails. *)
Definition lookup_fails : env :=
  {| now := now Sample.world;
     cookie_set := cookie_set Sample.world;
     cookie_read := cookie_read Sample.world;
     static_file := static_file Sample.world;
     mounted := mounted Sample.world;
     route_match := route_match Sample.world;
     store_ready := true;
     store_get := store_get Sample.world;
     secretSync := secretSync Sample.world;
     tokens_create := tokens_create Sample.world;
     tokens_verify := tokens_verify Sample.world;
     findById := fun _ =>
       Rejected (JS.OtherError "CastError" "Cast to ObjectId failed");
     adminRoutes := Next; shopRoutes := Next; authRoutes := Next |}.



(** A first visit: no session cookie yet. *)
Definition first_visit : request :=
  {| r_method := GET; r_url := "/"; r_content := Plain;
     r_token := None; r_sid := None |}.

(** An image sent under a field the bootstrap does not expect. *)
Definition avatar : part :=
  {| part_file := {| fieldname := "avatar"; originalname := "me.png";
                     mimetype := "image/png" |};
     part_data := "PNG" |}.

Definition post_avatar : request :=
  {| r_method := POST; r_url := "/admin/add-product";
     r_content := Multipart {[ "_csrf" := "salt-k" ]} (Some avatar);
     r_token := None; r_sid := Some "s1" |}.

(** An accepted image sent without a CSRF token. *)
Definition post_upload_without_token : request :=
  {| r_method := POST; r_url := "/admin/add-product";
     r_content := Multipart ∅ (Some Sample.png);
     r_token := None; r_sid := Some "s1" |}.

End Cases.

(** * Proofs *)

(** ** Calendar arithmetic and the shape of a time stamp *)

Import DateTime.
Lemma TimeFromYear_le y t : (TimeFromYear y <=? t) = (DayFromYear y <=? Day t).
Proof.
  unfold TimeFromYear, Day, msPerDay.
  generalize (DayFromYear y). intros d.
  destruct (Z.leb_spec (86400000 * d) t), (Z.leb_spec d (t / 86400000)); auto; zdiv.
Qed.

Lemma year_bounds t :
  DayFromYear (YearFromTime t) <= Day t < DayFromYear (YearFromTime t + 1).
Proof.
  unfold YearFromTime. rewrite !TimeFromYear_le.
  set (d := Day t). set (y := 1970 + d * 400 / 146097).
  assert (DayFromYear (y - 1) <= d < DayFromYear (y + 2))
    by (unfold DayFromYear, y; zdiv).
  destruct (Z.leb_spec (DayFromYear (y + 1)) d).
  - replace (y + 1 + 1) with (y + 2) by lia. lia.
  - destruct (Z.leb_spec (DayFromYear y) d).
    + lia.
    + replace (y - 1 + 1) with y by lia. lia.
Qed.

Lemma days_in_year y : DayFromYear (y + 1) = DayFromYear y + DaysInYear y.
Proof.
  unfold DayFromYear, DaysInYear, leap_year.
  destruct (Z.eqb_spec (y mod 4) 0), (Z.eqb_spec (y mod 100) 0),
    (Z.eqb_spec (y mod 400) 0); cbn [negb]; zdiv.
Qed.

Lemma dwy_range t : 0 <= DayWithinYear t < 365 + InLeapYear t.
Proof.
  unfold DayWithinYear, InLeapYear.
  pose proof (year_bounds t) as H. rewrite days_in_year in H.
  unfold DaysInYear in H. destruct (leap_year (YearFromTime t)); lia.
Qed.

Lemma month_date t :
  0 <= MonthFromTime t <= 11 /\ 1 <= DateFromTime t <= 31 /\
  DayWithinYear t = month_offset (MonthFromTime t) (InLeapYear t) + DateFromTime t - 1.
Proof.
  pose proof (dwy_range t) as Hr.
  assert (InLeapYear t = 0 \/ InLeapYear t = 1) as Hl
    by (unfold InLeapYear; destruct (leap_year _); auto).
  unfold DateFromTime, MonthFromTime.
  set (d := DayWithinYear t) in *. set (l := InLeapYear t) in *.
  repeat match goal with
         | |- context [?a <? ?b] => destruct (Z.ltb_spec a b)
         end; cbn [month_offset]; lia.
Qed.

Lemma ten_cases d : 0 <= d < 10 ->
  d = 0 \/ d = 1 \/ d = 2 \/ d = 3 \/ d = 4 \/ d = 5 \/ d = 6 \/ d = 7 \/ d = 8 \/ d = 9.
Proof. lia. Qed.

Lemma undigit_digit d : 0 <= d < 10 -> undigit (digit d) = d.
Proof. intros H. destruct (ten_cases d H) as [->|[->|[->|[->|[->|[->|[->|[->|[->| ->]]]]]]]]]; reflexivity. Qed.

Lemma digit_inj a b : 0 <= a < 10 -> 0 <= b < 10 -> digit a = digit b -> a = b.
Proof.
  intros Ha Hb H. rewrite <- (undigit_digit a Ha), <- (undigit_digit b Hb).
  now rewrite H.
Qed.

Lemma digit_is_digit d : 0 <= undigit (digit d) < 10.
Proof.
  destruct d as [|p|p]; [vm_compute; (split; [discriminate | reflexivity])| |vm_compute; (split; [discriminate | reflexivity])].
  do 4 (try destruct p as [p|p|]); vm_compute; (split; [discriminate | reflexivity]).
Qed.

Lemma pad_inj w : forall a b k k',
  pad w a k = pad w b k' -> a mod 10 ^ Z.of_nat w = b mod 10 ^ Z.of_nat w /\ k = k'.
Proof.
  induction w as [|w IH]; intros a b k k' H.
  - cbn in *. rewrite !Z.mod_1_r. auto.
  - cbn [pad] in H. apply IH in H as [Hq Hs].
    injection Hs as Hd ->.
    apply digit_inj in Hd; [|apply Z.mod_pos_bound; lia..].
    split; [|reflexivity].
    rewrite Nat2Z.inj_succ, Z.pow_succ_r by lia.
    rewrite !Z.rem_mul_r by lia. congruence.
Qed.

Lemma pad_inj_small w a b k k' :
  0 <= a < 10 ^ Z.of_nat w -> 0 <= b < 10 ^ Z.of_nat w ->
  pad w a k = pad w b k' -> a = b /\ k = k'.
Proof.
  intros Ha Hb H. apply pad_inj in H as [H ->].
  rewrite !Z.mod_small in H by assumption. auto.
Qed.

Lemma pad_head w : forall n k, exists d s, pad (S w) n k = String (digit d) s.
Proof.
  induction w as [|w IH]; intros n k.
  - cbn. eauto.
  - change (pad (S (S w)) n k) with (pad (S w) (n / 10) (String (digit (n mod 10)) k)).
    apply IH.
Qed.

Lemma digit_not_sign d : digit d <> "+"%char /\ digit d <> "-"%char.
Proof.
  pose proof (digit_is_digit d) as H.
  split; intros E; rewrite E in H; vm_compute in H; destruct H as [H1 H2]; [apply H1|apply H1]; reflexivity.
Qed.

Lemma pad2_inj a b k k' : 0 <= a < 100 -> 0 <= b < 100 ->
  pad 2 a k = pad 2 b k' -> a = b /\ k = k'.
Proof. apply (pad_inj_small 2). Qed.

Lemma pad3_inj a b k k' : 0 <= a < 1000 -> 0 <= b < 1000 ->
  pad 3 a k = pad 3 b k' -> a = b /\ k = k'.
Proof. apply (pad_inj_small 3). Qed.

Lemma pad4_inj a b k k' : 0 <= a < 10000 -> 0 <= b < 10000 ->
  pad 4 a k = pad 4 b k' -> a = b /\ k = k'.
Proof. apply (pad_inj_small 4). Qed.

Lemma pad6_inj a b k k' : 0 <= a < 1000000 -> 0 <= b < 1000000 ->
  pad 6 a k = pad 6 b k' -> a = b /\ k = k'.
Proof. apply (pad_inj_small 6). Qed.

Lemma String_inj c s c' s' : String c s = String c' s' -> c = c' /\ s = s'.
Proof. intros H. injection H. auto. Qed.

Lemma year_string_inj y y' k k' :
  -1000000 < y < 1000000 -> -1000000 < y' < 1000000 ->
  year_string y k = year_string y' k' -> y = y' /\ k = k'.
Proof.
  intros Hy Hy' H. unfold year_string in H.
  destruct (pad_head 3 y k) as (d & s & E).
  destruct (pad_head 3 y' k') as (d' & s' & E').
  destruct (digit_not_sign d), (digit_not_sign d').
  destruct (Z.leb_spec 0 y), (Z.leb_spec y 9999), (Z.leb_spec 0 y'), (Z.leb_spec y' 9999);
    cbn [andb] in H; try lia;
    lazymatch type of H with
    | pad 4 _ _ = pad 4 _ _ => apply pad4_inj in H; [assumption|lia..]
    | String ?c (pad 6 _ _) = String ?c (pad 6 _ _) =>
        apply String_inj in H as [_ H]; apply pad6_inj in H; [|lia..];
        destruct H; split; [lia|assumption]
    | pad 4 _ _ = String _ _ =>
        rewrite E in H; apply String_inj in H as [H _]; congruence
    | String _ _ = pad 4 _ _ =>
        rewrite E' in H; apply String_inj in H as [H _]; congruence
    | _ => discriminate
    end.
Qed.

Lemma year_range t : valid_time t -> -1000000 < YearFromTime t < 1000000.
Proof.
  unfold valid_time, maxTime. intros Ht.
  pose proof (year_bounds t) as Hb. rewrite days_in_year in Hb.
  assert (365 <= DaysInYear (YearFromTime t) <= 366)
    by (unfold DaysInYear; destruct (leap_year _); lia).
  unfold DayFromYear, Day, msPerDay in Hb. zdiv.
Qed.

Lemma time_parts t :
  t = Day t * msPerDay
      + ((HourFromTime t * 60 + MinFromTime t) * 60 + SecFromTime t) * 1000
      + msFromTime t /\
  0 <= HourFromTime t < 24 /\ 0 <= MinFromTime t < 60 /\
  0 <= SecFromTime t < 60 /\ 0 <= msFromTime t < 1000.
Proof.
  unfold Day, HourFromTime, MinFromTime, SecFromTime, msFromTime,
    msPerDay, msPerHour, msPerMinute, msPerSecond. zdiv.
Qed.

Lemma pad_app w : forall n s k, pad w n s +:+ k = pad w n (s +:+ k).
Proof. induction w as [|w IH]; intros n s k; cbn [pad]; [reflexivity|]. now rewrite IH. Qed.

Lemma append_String c s k : String c s +:+ k = String c (s +:+ k).
Proof. reflexivity. Qed.

Lemma year_string_app y s k : year_string y s +:+ k = year_string y (s +:+ k).
Proof.
  unfold year_string.
  destruct (_ && _); [apply pad_app|].
  destruct (0 <=? y); now rewrite append_String, pad_app.
Qed.

Lemma digit_not_colon d : Ascii.eqb (digit d) ":" = false.
Proof.
  pose proof (digit_is_digit d) as H.
  destruct (Ascii.eqb_spec (digit d) ":") as [E|]; [|reflexivity].
  rewrite E in H. vm_compute in H. destruct H as [_ H]. discriminate H.
Qed.

Lemma replace_colons_pad w : forall n s,
  replace_colons (pad w n s) = pad w n (replace_colons s).
Proof.
  induction w as [|w IH]; intros n s; cbn [pad]; [reflexivity|].
  rewrite IH. cbn [replace_colons]. now rewrite digit_not_colon.
Qed.

Lemma replace_colons_year y s :
  replace_colons (year_string y s) = year_string y (replace_colons s).
Proof.
  unfold year_string.
  destruct (_ && _); [apply replace_colons_pad|].
  destruct (0 <=? y); cbn [replace_colons]; now rewrite replace_colons_pad.
Qed.

Lemma toISOString_app t k : toISOString t +:+ k = stamp ":" t k.
Proof.
  unfold toISOString, stamp. rewrite year_string_app.
  repeat rewrite append_String, pad_app. reflexivity.
Qed.

Lemma replace_colons_app t k :
  replace_colons (toISOString t) +:+ k = stamp "-" t k.
Proof.
  unfold toISOString, stamp. rewrite replace_colons_year, year_string_app.
  repeat (cbn [replace_colons]; rewrite replace_colons_pad, append_String, pad_app).
  reflexivity.
Qed.

Lemma day_of_date t :
  Day t = DayFromYear (YearFromTime t)
          + month_offset (MonthFromTime t) (InLeapYear t) + DateFromTime t - 1.
Proof.
  pose proof (month_date t) as (_ & _ & H).
  unfold DayWithinYear in H. lia.
Qed.

Lemma stamp_inj sep t t' k k' :
  valid_time t -> valid_time t' ->
  stamp sep t k = stamp sep t' k' -> t = t' /\ k = k'.
Proof.
  intros Ht Ht' H. unfold stamp in H.
  pose proof (month_date t) as (Hm & Hd & _).
  pose proof (month_date t') as (Hm' & Hd' & _).
  pose proof (time_parts t) as (Hp & Hh & Hmi & Hs & Hms).
  pose proof (time_parts t') as (Hp' & Hh' & Hmi' & Hs' & Hms').
  apply year_string_inj in H as [Ey H]; [|apply year_range; assumption..].
  apply String_inj in H as [_ H]. apply pad2_inj in H as [Emo H]; [|lia..].
  apply String_inj in H as [_ H]. apply pad2_inj in H as [Eda H]; [|lia..].
  apply String_inj in H as [_ H]. apply pad2_inj in H as [Eh H]; [|lia..].
  apply String_inj in H as [_ H]. apply pad2_inj in H as [Emi H]; [|lia..].
  apply String_inj in H as [_ H]. apply pad2_inj in H as [Es H]; [|lia..].
  apply String_inj in H as [_ H]. apply pad3_inj in H as [Ems H]; [|lia..].
  apply String_inj in H as [_ H].
  split; [|assumption].
  assert (Day t = Day t') as Eday.
  { rewrite (day_of_date t), (day_of_date t').
    unfold InLeapYear. rewrite Ey, Eda.
    replace (MonthFromTime t) with (MonthFromTime t') by lia. reflexivity. }
  rewrite Hp, Hp', Eday, Eh, Emi, Es, Ems. reflexivity.
Qed.

(** ** Walking a stack *)
Section Walk.
Context (E : env).

Lemma visited_enter x p : visited (enter x p) = x :: visited p.
Proof. destruct p; reflexivity. Qed.

Lemma enter_after x tr p : enter x (after tr p) = after (x :: tr) p.
Proof. destruct p; reflexivity. Qed.

Lemma after_nil p : after [] p = p.
Proof. destruct p; reflexivity. Qed.

Lemma and_then_enter x p k : and_then (enter x p) k = enter x (and_then p k).
Proof. destruct p as [tr r c|tr err c]; cbn; [reflexivity|]. now rewrite enter_after. Qed.

(** Walking a stack in two stretches. *)
Lemma walk_app l1 l2 : forall err c,
  walk E (l1 ++ l2)%list err c = and_then (walk E l1 err c) (walk E l2).
Proof.
  induction l1 as [|r l1 IH]; intros err c.
  - cbn. now rewrite after_nil.
  - cbn [walk app]. destruct (applies E r c); [|apply IH].
    destruct (handle E (mw_of r)) as [h|h], err as [e|]; try apply IH.
    + rewrite and_then_enter. f_equal. destruct (h c); try apply IH. reflexivity.
    + rewrite and_then_enter. f_equal. destruct (h e c); try apply IH. reflexivity.
Qed.

(** The layers that ran, in the order they ran, are among the registered
    ones in the order of registration. *)
Lemma walk_sublist l : forall err c,
  stages (visited (walk E l err c)) `sublist_of` map mw_of l.
Proof.
  induction l as [|r l IH]; intros err c; cbn [walk map].
  - constructor.
  - destruct (applies E r c); [|apply sublist_cons, IH].
    destruct (handle E (mw_of r)) as [h|h], err as [e|];
      try (apply sublist_cons, IH); rewrite visited_enter; cbn [stages map fst];
      apply sublist_skip.
    + destruct (h c); try apply IH. apply sublist_nil_l.
    + destruct (h e c); try apply IH. apply sublist_nil_l.
Qed.

Lemma ran_dispatch l err c : ran (dispatch E l err c) = visited (walk E l err c).
Proof. unfold dispatch. destruct (walk E l err c); reflexivity. Qed.

End Walk.

(** ** The end of the stack *)
Section Tail.
Context (E : env).

(** With an error in hand, every layer but the 500 handler is skipped. *)
Lemma rescue (k : nat) e c : (k <= 16)%nat ->
  walk E (drop k (stack variant1)) (Some e) c
  = Answered [(Error500, c)] (page500 c) c.
Proof.
  intros Hk.
  do 17 (destruct k as [|k];
         [cbn; repeat (destruct (mounted E _ _); cbn); reflexivity|]).
  exfalso; lia.
Qed.

Lemma back_error e c :
  walk E back (Some e) c = Answered [(Error500, c)] (page500 c) c.
Proof. apply (rescue 12). lia. Qed.

(** The last three layers: the 404 page without an error, the 500 page
    with one; the debug route is never looked at. *)
Lemma last_three err c :
  DebugSession ∉
    stages (visited (walk E [Use Get404; Use Error500;
                             Get "/debug-session" DebugSession] err c)).
Proof. destruct err; cbn; set_solver. Qed.

Lemma visited_and_then p k :
  visited (and_then p k)
  = match p with
    | Answered tr _ _ => tr
    | Pending tr err c => (tr ++ visited (k err c))%list
    end.
Proof. destruct p as [|tr err c]; [reflexivity|]. cbn. destruct (k err c); reflexivity. Qed.

Lemma debug_never_runs o err c :
  DebugSession ∉
    stages (visited (walk E (front ++ [Use (Session o)] ++ middle ++ back)%list err c)).
Proof.
  change (front ++ [Use (Session o)] ++ middle ++ back)%list
    with ((front ++ [Use (Session o)] ++ middle ++
            [UseAt "/admin" AdminRoutes; Use ShopRoutes; Use AuthRoutes]) ++
          [Use Get404; Use Error500; Get "/debug-session" DebugSession])%list.
  rewrite walk_app, visited_and_then.
  match goal with |- context [walk E ?l err c] =>
    pose proof (walk_sublist E l err c) as Hsub; destruct (walk E l err c) as [tr rs c'|tr err' c'] end.
  - cbn [visited] in Hsub. intros Hin.
    eapply elem_of_sublist in Hin; [|exact Hsub]. cbn in Hin. set_solver.
  - cbn [visited] in Hsub. unfold stages. rewrite map_app. intros Hin.
    apply elem_of_app in Hin as [Hin|Hin].
    + eapply elem_of_sublist in Hin; [|exact Hsub]. cbn in Hin. set_solver.
    + now apply last_three in Hin.
Qed.

End Tail.

Lemma find_app {A} (f : A -> bool) (l1 l2 : list A) :
  find f (l1 ++ l2) = match find f l1 with Some x => Some x | None => find f l2 end.
Proof. induction l1 as [|a l1 IH]; cbn; [reflexivity|]. destruct (f a); auto. Qed.

Lemma find_none_all {A} (f : A -> bool) (l : list A) :
  (forall x, x ∈ l -> f x = false) -> find f l = None.
Proof.
  induction l as [|a l IH]; intros H; cbn; [reflexivity|].
  rewrite (H a) by apply list_elem_of_here. apply IH.
  intros x Hx. apply H. now apply list_elem_of_further.
Qed.

(** No route group runs in a stretch of trace that stays within layers
    which are not route groups. *)
Lemma no_route_entry tr (l : list middleware) :
  stages tr `sublist_of` l -> forallb (fun mw => negb (is_route mw)) l = true ->
  route_entry tr = None.
Proof.
  intros Hsub Hl. apply find_none_all. intros [mw c1] Hin. cbn.
  assert (mw ∈ l) as Hmw.
  { eapply elem_of_sublist; [|exact Hsub]. unfold stages.
    apply list_elem_of_fmap. exists (mw, c1). auto. }
  rewrite forallb_forall in Hl. apply list_elem_of_In, Hl in Hmw.
  now destruct (is_route mw).
Qed.

(** ** The stretches of the stack, one by one *)
Lemma front_cases E r files :
  match walk E front None (init r files) with
  | Answered _ _ _ => ignoreMethod (r_method r) = true
  | Pending _ None c => untouched r c
  | Pending _ (Some _) _ => True
  end.
Proof.
  destruct r as [m u ct tok sid]. unfold front, untouched.
  cbn [walk applies handle mw_of enter]. unfold urlencoded, multer_single, serve_static.
  cbn [req init r_content r_method r_url].
  destruct ct as [|fields| |fields [p|]], m; cbn;
    repeat match goal with
    | |- context [static_file E ?a ?b] => destruct (static_file E a b); cbn
    | |- context [mounted E ?a ?b] => destruct (mounted E a b); cbn
    | |- context [String.eqb ?a ?b] => destruct (String.eqb a b); cbn
    | |- context [fileFilter ?f] => destruct (fileFilter f) as [[?|] []]; cbn
    end; auto.
Qed.

Lemma session_cases E o r c :
  untouched r c ->
  match walk E [Use (Session o)] None c with
  | Answered _ _ _ => False
  | Pending _ None c' =>
      req_session c' = JS.VUndef \/ exists s, req_session c' = JS.VObj s
  | Pending _ (Some _) _ => True
  end.
Proof.
  intros (_ & Hs & _). cbn [walk applies handle mw_of]. unfold session_mw.
  rewrite Hs. cbn [JS.truthy].
  destruct (store_ready E); cbn; [|auto].
  destruct (r_sid (req c)) as [sid|]; cbn; [|eauto].
  destruct (store_get E sid); cbn; eauto.
Qed.

(** A request that changes state and whose token does not verify is
    stopped at the CSRF check at the latest. *)
Lemma csrf_stops E o r c :
  untouched r c ->
  ignoreMethod (r_method r) = false ->
  token_valid E r = false ->
  exists tr e c',
    walk E [Use (Session o); Use CsrfProtection] None c = Pending tr (Some e) c'.
Proof.
  intros (Hr & Hs & _ & Hv) Hm Ht.
  unfold token_valid, bound_secret in Ht.
  cbn [walk applies handle mw_of]. unfold session_mw.
  rewrite Hs, Hr. cbn [JS.truthy].
  destruct (store_ready E); cbn [negb].
  2:{ unfold csrfProtection at 1. rewrite Hs. cbn. eauto. }
  assert (forall s c1, req c1 = r -> csrf_value c1 = submitted r ->
            req_session c1 = JS.VObj s ->
            verify E (if JS.truthy (default JS.VUndef (s !! "csrfSecret"))
                      then default JS.VUndef (s !! "csrfSecret")
                      else JS.VStr (secretSync E)) (submitted r) = false ->
            exists tr e c', enter (Session o, c)
              (walk E [Use CsrfProtection] None c1) = Pending tr (Some e) c')
    as Hstop.
  { intros s c1 Hr1 Hv1 Hs1 Hver. cbn [walk applies handle mw_of].
    unfold csrfProtection. rewrite Hs1, Hr1, Hv1, Hm. cbn [JS.truthy negb JS.opt_get andb].
    rewrite Hver. cbn. eauto. }
  assert (verify E (JS.VStr (secretSync E)) (submitted r) = false ->
          exists tr e c', enter (Session o, c)
            (walk E [Use CsrfProtection] None (set_session (new_session o E) c))
            = Pending tr (Some e) c') as Hnew.
  { intros Hsec. eapply Hstop; [exact Hr|exact Hv|reflexivity|].
    rewrite lookup_singleton_ne by done. exact Hsec. }
  destruct (r_sid r) as [sid|]; [|auto].
  destruct (store_get E sid) as [s| |e]; [|auto|cbn; eauto].
  apply (Hstop s); auto.
Qed.

Lemma csrf_next E c c' s :
  req_session c = JS.VObj s ->
  csrfProtection E c = Next c' ->
  req_csrfToken c' = true /\
  exists s', req_session c' = JS.VObj s' /\
             default JS.VUndef (s' !! "csrfSecret") <> JS.VUndef.
Proof.
  intros Hs. unfold csrfProtection. rewrite Hs. cbn [JS.truthy negb JS.opt_get].
  destruct (negb (ignoreMethod _) && _); [discriminate|].
  destruct (JS.truthy (default JS.VUndef (s !! "csrfSecret"))) eqn:Hsec;
    intros [= <-]; (split; [reflexivity|]).
  - exists s. split; [exact Hs|]. intros Hu. now rewrite Hu in Hsec.
  - eexists. cbn [req_session set_session set_csrfToken JS.set].
    split; [reflexivity|]. now rewrite lookup_insert_eq.
Qed.

Lemma setLocals_next E c c' s :
  req_session c = JS.VObj s ->
  default JS.VUndef (s !! "csrfSecret") <> JS.VUndef ->
  req_csrfToken c = true ->
  setLocals E c = Next c' ->
  req_session c' = JS.VObj s /\ locals_set E c'.
Proof.
  intros Hs Hsec Htok. unfold setLocals, call_csrfToken.
  cbn [req_csrfToken req_session set_local]. rewrite Htok, Hs.
  cbn [negb JS.truthy JS.opt_get].
  destruct (default JS.VUndef (s !! "csrfSecret")) eqn:Hd; try contradiction;
    match goal with
    | |- context [create E ?v] => destruct (create E v) as [e|tok] eqn:Hc
    end; intros [= <-]; unfold locals_set;
    cbn [req_session res_locals set_local]; rewrite ?Hs; cbn [JS.opt_get];
    rewrite Hd, lookup_insert_eq, lookup_insert_ne, lookup_insert_eq by done;
    eauto.
Qed.

Lemma setUser_next E c c' :
  setUser E c = Next c' ->
  req_session c' = req_session c /\ res_locals c' = res_locals c.
Proof.
  unfold setUser.
  destruct (JS.get (req_session c) "user") as [e|u]; [discriminate|].
  destruct (JS.not u); [intros [= <-]; auto|].
  destruct (JS.get u "_id") as [e|id]; [discriminate|].
  destruct (findById E id) as [user|err]; [|discriminate].
  destruct (JS.not user); intros [= <-]; auto.
Qed.

Lemma checks_cases E c :
  (req_session c = JS.VUndef \/ exists s, req_session c = JS.VObj s) ->
  match walk E checks None c with
  | Answered _ _ _ => False
  | Pending tr None c' =>
      (exists s, req_session c' = JS.VObj s) /\ locals_set E c' /\
      SetLocals ∈ stages tr
  | Pending _ (Some _) _ => True
  end.
Proof.
  intros Hs. unfold checks. cbn [walk applies handle mw_of].
  destruct (csrfProtection E c) as [c1|e c1|rs c1] eqn:H1;
    cbn [walk applies handle mw_of enter].
  - destruct Hs as [Hs|[s Hs]];
      [unfold csrfProtection in H1; rewrite Hs in H1; discriminate|].
    destruct (csrf_next E c c1 s Hs H1) as (Htok & s1 & Hs1 & Hsec).
    unfold flash.
    destruct (setLocals E (set_flash true c1)) as [c3|e c3|rs c3] eqn:H3;
      cbn [walk applies handle mw_of enter].
    + apply (setLocals_next E _ _ s1) in H3 as [Hs3 Hl3]; auto.
      split; [eauto|]. split; [exact Hl3|]. cbn. set_solver.
    + exact I.
    + unfold setLocals in H3. repeat case_match; discriminate.
  - exact I.
  - unfold csrfProtection in H1. repeat case_match; discriminate.
Qed.


Lemma back_entry E c mw c' :
  route_entry (visited (walk E back None c)) = Some (mw, c') -> c' = c.
Proof.
  unfold back. cbn [walk applies handle mw_of].
  destruct (mounted E "/admin" (r_url (req c)));
    rewrite visited_enter; cbn; now intros [= _ <-].
Qed.

(** ** The authentication flag *)
Lemma isAuthenticated_truthy s :
  JS.truthy (isAuthenticated s) = JS.truthy (JS.opt_get s "isLoggedIn").
Proof.
  unfold isAuthenticated, JS.or.
  destruct (JS.truthy (JS.opt_get s "isLoggedIn")) eqn:H; [exact H|reflexivity].
Qed.



(** ** Uploads: filter and naming *)
Lemma generated_name_stamp t f :
  generated_name t f = stamp "-" t (String "-" (originalname f)).
Proof. unfold generated_name, filename. apply replace_colons_app. Qed.

Lemma generated_name_inj t t' f f' :
  DateTime.valid_time t -> DateTime.valid_time t' ->
  generated_name t f = generated_name t' f' ->
  t = t' /\ originalname f = originalname f'.
Proof.
  intros Ht Ht' H. rewrite !generated_name_stamp in H.
  apply stamp_inj in H as [-> H]; [|assumption..].
  apply String_inj in H as [_ H]. auto.
Qed.

Lemma replace_colons_clean s : ":"%char ∉ list_ascii_of_string (replace_colons s).
Proof.
  induction s as [|a s IH]; cbn [replace_colons list_ascii_of_string].
  - apply not_elem_of_nil.
  - apply not_elem_of_cons. split; [|exact IH].
    destruct (Ascii.eqb_spec a ":"); [discriminate|congruence].
Qed.

Lemma fileFilter_spec f :
  fileFilter f = Cb None (bool_decide (mimetype f ∈ image_types)).
Proof.
  unfold fileFilter, image_types.
  destruct (String.eqb_spec (mimetype f) "image/png") as [->|H1]; [reflexivity|].
  destruct (String.eqb_spec (mimetype f) "image/jpg") as [->|H2]; [reflexivity|].
  destruct (String.eqb_spec (mimetype f) "image/jpeg") as [->|H3]; [reflexivity|].
  cbn [orb]. rewrite bool_decide_eq_false_2; [reflexivity|].
  rewrite !elem_of_cons, elem_of_nil. tauto.
Qed.

(** ** The two bootstraps side by side *)
Lemma stack_split1 :
  stack variant1 = front ++ [Use (Session variant1_session)] ++ middle ++ back.
Proof. reflexivity. Qed.

Lemma stack_split2 :
  stack variant2 = front ++ [Use (Session variant2_session)] ++ middle ++ back.
Proof. reflexivity. Qed.

Lemma blur_app tr tr' : blur (tr ++ tr') = blur tr ++ blur tr'.
Proof. apply map_app. Qed.

Lemma session_established E o r c :
  established E r -> untouched r c ->
  walk E [Use (Session o)] None c
  = enter (Session o, c)
      (walk E [] None
         (if store_ready E then
            match r_sid r with
            | Some sid =>
                match store_get E sid with
                | Found s => set_session (JS.VObj s) c
                | _ => c
                end
            | None => c
            end
          else c)).
Proof.
  intros (sid & s & Hsid & Hget) (Hr & Hs & _).
  cbn [walk applies handle mw_of]. unfold session_mw.
  rewrite Hs, Hr, Hsid, Hget. cbn [JS.truthy].
  destruct (store_ready E); reflexivity.
Qed.

(** ** Reaching user attachment *)
Lemma not_entered tr (l : list middleware) mw c :
  stages tr `sublist_of` l -> mw ∉ l -> (mw, c) ∉ tr.
Proof.
  intros Hsub Hl Hin. apply Hl. eapply elem_of_sublist; [|exact Hsub].
  unfold stages. apply list_elem_of_fmap. exists (mw, c). auto.
Qed.

(** The context user attachment is entered with, and how the request
    goes on from there. *)
Lemma setUser_entry E r files c :
  (SetUser, c) ∈ ran (run variant1 E r files) ->
  (exists s, req_session c = JS.VObj s) /\
  exists tr,
    walk E (stack variant1) None (init r files)
    = after tr (walk E (drop 11 (stack variant1)) None c).
Proof.
  unfold run. rewrite ran_dispatch.
  change (stack variant1)
    with (front ++ [Use (Session variant1_session)] ++ checks
            ++ drop 11 (stack variant1)).
  rewrite walk_app.
  pose proof (front_cases E r files) as Hf.
  pose proof (walk_sublist E front None (init r files)) as Hsf.
  destruct (walk E front None (init r files)) as [tr0 rs0 c0|tr0 [e0|] c0];
    cbn [and_then visited] in *.
  - intros Hin. exfalso. revert Hin. eapply not_entered; [exact Hsf|].
    cbn. set_solver.
  - change ([Use (Session variant1_session)] ++ checks ++ drop 11 (stack variant1))
      with (drop 7 (stack variant1)).
    rewrite (rescue E 7 e0 c0) by lia. cbn [after visited].
    intros Hin. exfalso. apply elem_of_app in Hin as [Hin|Hin].
    + revert Hin. eapply not_entered; [exact Hsf|]. cbn. set_solver.
    + set_solver.
  - rewrite walk_app.
    pose proof (session_cases E variant1_session r c0 Hf) as Hs.
    pose proof (walk_sublist E [Use (Session variant1_session)] None c0) as Hss.
    destruct (walk E [Use (Session variant1_session)] None c0)
      as [tr1 rs1 c1|tr1 [e1|] c1];
      cbn [and_then visited] in *; [contradiction| |].
    + change (checks ++ drop 11 (stack variant1)) with (drop 8 (stack variant1)).
      rewrite (rescue E 8 e1 c1) by lia. cbn [after visited].
      intros Hin. exfalso. rewrite !elem_of_app in Hin.
      destruct Hin as [Hin|[Hin|Hin]].
      * revert Hin. eapply not_entered; [exact Hsf|]. cbn. set_solver.
      * revert Hin. eapply not_entered; [exact Hss|]. cbn. set_solver.
      * set_solver.
    + rewrite walk_app.
      pose proof (checks_cases E c1 Hs) as Hm.
      pose proof (walk_sublist E checks None c1) as Hsm.
      destruct (walk E checks None c1) as [tr2 rs2 c2|tr2 [e2|] c2];
        cbn [and_then visited] in *; [contradiction| |].
      * rewrite (rescue E 11 e2 c2) by lia. cbn [after visited].
        intros Hin. exfalso. rewrite !elem_of_app in Hin.
        destruct Hin as [Hin|[Hin|[Hin|Hin]]].
        -- revert Hin. eapply not_entered; [exact Hsf|]. cbn. set_solver.
        -- revert Hin. eapply not_entered; [exact Hss|]. cbn. set_solver.
        -- revert Hin. eapply not_entered; [exact Hsm|]. cbn. set_solver.
        -- set_solver.
      * destruct Hm as (Hobj & _ & _).
        assert ((SetUser, c) ∈ visited (walk E (drop 11 (stack variant1)) None c2)
                -> c = c2) as Hhead.
        { change (drop 11 (stack variant1)) with ([Use SetUser] ++ back).
          rewrite walk_app. cbn [walk applies handle mw_of].
          rewrite and_then_enter, visited_enter.
          intros Hin. apply elem_of_cons in Hin as [[= ->]|Hin]; [reflexivity|].
          exfalso. revert Hin.
          destruct (setUser E c2) as [c3|e3 c3|rs3 c3];
            cbn [and_then after app visited].
          - pose proof (walk_sublist E back None c3) as Hsb.
            destruct (walk E back None c3); cbn [after app visited] in *;
              (eapply not_entered; [exact Hsb|]); cbn; set_solver.
          - rewrite back_error. cbn. set_solver.
          - set_solver. }
        intros Hin.
        assert (c = c2) as ->.
        { destruct (walk E (drop 11 (stack variant1)) None c2) eqn:Hw;
            cbn [after visited] in *; rewrite !elem_of_app in Hin;
            destruct Hin as [Hin|[Hin|[Hin|Hin]]]; auto; exfalso; revert Hin;
            [eapply not_entered; [exact Hsf|]|eapply not_entered; [exact Hss|]
            |eapply not_entered; [exact Hsm|]|eapply not_entered; [exact Hsf|]
            |eapply not_entered; [exact Hss|]|eapply not_entered; [exact Hsm|]];
            cbn; set_solver. }
        split; [exact Hobj|].
        exists (tr0 ++ tr1 ++ tr2).
        change (drop 11 (front ++ [Use (Session variant1_session)] ++ checks
                           ++ drop 11 (stack variant1)))
          with (drop 11 (stack variant1)).
        destruct (walk E (drop 11 (stack variant1)) None c2);
          cbn [after]; now rewrite <- !app_assoc.
Qed.

(** * The claims *)

(** C1.  The debug route never runs: it is registered after the
    catch-all 404 handler and the error handler, one of which has
    answered before the walk gets to it, whatever the request, the world
    and the bootstrap.  The sample GET /debug-session gets the not-found
    page instead of the session contents.  The handler on its own would
    send nothing but the session. *)
Theorem debug_session_unreachable :
  (forall E r files,
     (DebugSession ∉ stages (ran (run variant1 E r files))) /\
     (DebugSession ∉ stages (ran (run variant2 E r files)))) /\
  reply (run variant1 Sample.world Sample.get_debug ∅)
  = {| status := 404;
       sent := Rendered "404" {[ "pageTitle" := JS.VStr "Page Not Found" ]} |} /\
  (forall c, debugSession c
             = Respond {| status := 200; sent := Sent (req_session c) |} c).
Proof.
  split; [|split; reflexivity].
  intros E r files. unfold run. rewrite !ran_dispatch.
  split; apply debug_never_runs.
Qed.

(** C2, as the claim states it: a state-changing request with a bad
    token would get a client error.  The sample POST without a token
    gets status 500. *)
Lemma csrf_client_error_fails :
  ~ (forall E r files,
       ignoreMethod (r_method r) = false -> token_valid E r = false ->
       client_error (reply (run variant1 E r files))).
Proof.
  intros H.
  specialize (H Sample.world Sample.post_without_token ∅ eq_refl eq_refl).
  vm_compute in H. destruct H as [_ H]. discriminate H.
Qed.

(** C2, amended.  A request whose method is not GET, HEAD or OPTIONS and
    whose token does not verify against the secret bound to its session
    runs no route group: only layers up to the CSRF check run, then the
    error handler, which answers with the failure page and status 500. *)
Theorem csrf_rejection E (r : request) (files : gmap string string)
    (Hm : ignoreMethod (r_method r) = false)
    (Hv : token_valid E r = false) :
  exists tr c,
    ran (run variant1 E r files) = (tr ++ [(Error500, c)])%list /\
    stages tr `sublist_of`
      [ Helmet; Compression; Morgan "combined" "access.log"; UrlEncoded false;
        MulterSingle "image"; Static "public"; Static "images";
        Session variant1_session;
        CsrfProtection ] /\
    route_entry (ran (run variant1 E r files)) = None /\
    reply (run variant1 E r files) = page500 c /\
    status (reply (run variant1 E r files)) = 500.
Proof.
  set (o := variant1_session).
  set (pre := (front ++ [Use (Session o); Use CsrfProtection])%list).
  assert (exists tr e c, walk E pre None (init r files) = Pending tr (Some e) c)
    as (tr & e & c & Hpre).
  { unfold pre. rewrite walk_app.
    pose proof (front_cases E r files) as Hf.
    destruct (walk E front None (init r files)) as [? ? ?|tr0 [e0|] c0].
    - congruence.
    - cbn. eauto.
    - destruct (csrf_stops E o r c0 Hf Hm Hv) as (tr1 & e1 & c1 & H1).
      cbn [and_then]. rewrite H1. cbn. eauto. }
  assert (stages tr `sublist_of` map mw_of pre) as Hsub.
  { pose proof (walk_sublist E pre None (init r files)) as H.
    now rewrite Hpre in H. }
  assert (walk E (stack variant1) None (init r files)
          = Answered (tr ++ [(Error500, c)]) (page500 c) c) as Hrun.
  { change (stack variant1) with (pre ++ drop 9 (stack variant1))%list.
    rewrite walk_app, Hpre. cbn [and_then].
    rewrite (rescue E 9) by lia. reflexivity. }
  exists tr, c. unfold run, dispatch. rewrite Hrun. cbn [ran reply].
  split; [reflexivity|]. split; [exact Hsub|]. split; [|split; reflexivity].
  unfold route_entry. rewrite find_app.
  fold (route_entry tr). rewrite (no_route_entry tr _ Hsub); reflexivity.
Qed.

Lemma csrf_rejection_witness :
  status (reply (run variant1 Sample.world Sample.post_without_token ∅)) = 500.
Proof.
  destruct (csrf_rejection Sample.world Sample.post_without_token ∅
              eq_refl eq_refl) as (tr & c & _ & _ & _ & _ & H).
  exact H.
Defined.

(** C3.  The filter accepts a file exactly when its media type is
    image/png, image/jpg or image/jpeg, and never reports an error.  A
    file of another type sent under the field [image] is left out: the
    upload middleware passes the request on, the next layer sees no
    attached file and the disk as it was. *)
Theorem rejected_upload_is_dropped E (r : request) (files : gmap string string)
    (fields : gmap string string) (p : part)
    (Hc : r_content r = Multipart fields (Some p))
    (Hf : fieldname (part_file p) = "image")
    (Hm : mimetype (part_file p) ∉ image_types) :
  (forall f, fileFilter f = Cb None (bool_decide (mimetype f ∈ image_types))) /\
  fileFilter (part_file p) = Cb None false /\
  multer_single "image" E (init r files) = Next (set_body fields (init r files)) /\
  ran (run variant1 E r files) !! 5%nat
  = Some (Static "public", set_body fields (init r files)) /\
  req_file (set_body fields (init r files)) = None /\
  disk (set_body fields (init r files)) = files.
Proof.
  assert (fileFilter (part_file p) = Cb None false) as Hrej
    by (rewrite fileFilter_spec, bool_decide_eq_false_2; auto).
  assert (multer_single "image" E (init r files)
          = Next (set_body fields (init r files))) as Hmul.
  { unfold multer_single. cbn [req init]. rewrite Hc, Hf, Hrej.
    destruct (String.eqb _ ""); reflexivity. }
  split; [exact fileFilter_spec|]. split; [exact Hrej|]. split; [exact Hmul|].
  split; [|split; reflexivity].
  unfold run. rewrite ran_dispatch.
  cbn [stack variant1 walk applies handle mw_of].
  unfold urlencoded at 1. cbn [req init]. rewrite Hc.
  rewrite !visited_enter.
  change (req (init r files)) with r in Hmul. rewrite Hmul.
  cbn [walk applies handle mw_of]. rewrite !visited_enter. reflexivity.
Qed.

Lemma rejected_upload_is_dropped_witness :
  multer_single "image" Sample.world (init (Sample.post_upload Sample.gif) ∅)
  = Next (set_body {[ "_csrf" := "salt-k" ]}
            (init (Sample.post_upload Sample.gif) ∅)).
Proof.
  refine (proj1 (proj2 (proj2
    (rejected_upload_is_dropped Sample.world (Sample.post_upload Sample.gif) ∅
       {[ "_csrf" := "salt-k" ]} Sample.gif eq_refl eq_refl _)))).
  intros H. apply list_elem_of_In in H. cbn in H.
  destruct H as [H|[H|[H|H]]]; try discriminate H. exact H.
Defined.

(** C4, as the claim states it: user attachment would come before the
    CSRF check and flash.  The sample upload request runs the CSRF check
    and flash first. *)
Lemma spec_order_fails :
  ~ (forall E r files, in_spec_order (ran (run variant1 E r files)) = true).
Proof.
  intros H. specialize (H Sample.world (Sample.post_upload Sample.png) ∅).
  vm_compute in H. discriminate H.
Qed.

(** C4, amended.  The layers a request runs are, in this order, among:
    helmet, compression, access logging, body parsing, file parsing, the
    two static directories, session, CSRF check, flash, view locals,
    user attachment, the three route groups, the 404 handler, the 500
    handler, the debug route.  The sample upload runs them all up to the
    404 handler, but for the static directory it is not under. *)
Theorem registration_order E r files :
  stages (ran (run variant1 E r files)) `sublist_of`
    [ Helmet; Compression; Morgan "combined" "access.log"; UrlEncoded false;
      MulterSingle "image"; Static "public"; Static "images";
      Session variant1_session;
      CsrfProtection; Flash; SetLocals; SetUser;
      AdminRoutes; ShopRoutes; AuthRoutes; Get404; Error500; DebugSession ] /\
  stages (ran (run variant1 Sample.world (Sample.post_upload Sample.png) ∅))
  = [ Helmet; Compression; Morgan "combined" "access.log"; UrlEncoded false;
      MulterSingle "image"; Static "public";
      Session variant1_session;
      CsrfProtection; Flash; SetLocals; SetUser;
      AdminRoutes; ShopRoutes; AuthRoutes; Get404 ].
Proof.
  split; [|reflexivity].
  unfold run. rewrite ran_dispatch. apply (walk_sublist E (stack variant1)).
Qed.

(** C6, as the claim states it: the stored name would be the time stamp
    followed directly by the original name. *)
Lemma name_without_separator_fails :
  ~ (forall t f,
       generated_name t f
       = replace_colons (DateTime.toISOString t) +:+ originalname f).
Proof.
  intros H. specialize (H 0 (part_file Sample.png)).
  vm_compute in H. discriminate H.
Qed.

(** C6, amended.  An accepted upload is stored in [images] under the
    ISO time stamp with its colons turned into hyphens, a hyphen, and
    the original name. *)
Theorem stored_name E (c : ctx) (fields : gmap string string) (p : part)
    (Hc : r_content (req c) = Multipart fields (Some p))
    (Hn : originalname (part_file p) <> "")
    (Hf : fieldname (part_file p) = "image")
    (Hm : mimetype (part_file p) ∈ image_types) :
  let name :=
    replace_colons (DateTime.toISOString (now E)) +:+ "-"
      +:+ originalname (part_file p) in
  destination (part_file p) = Cb None "images" /\
  filename (now E) (part_file p) = Cb None name /\
  (":"%char ∉ list_ascii_of_string (replace_colons (DateTime.toISOString (now E)))) /\
  exists c',
    multer_single "image" E c = Next c' /\
    req_file c'
    = Some {| s_file := part_file p; s_destination := "images";
              s_filename := name; s_path := "images/" +:+ name |} /\
    disk c' !! ("images/" +:+ name) = Some (part_data p).
Proof.
  intros name. split; [reflexivity|]. split; [reflexivity|].
  split; [apply replace_colons_clean|].
  eexists. split.
  - unfold multer_single. rewrite Hc.
    destruct (String.eqb_spec (originalname (part_file p)) "") as [He|_];
      [contradiction|].
    rewrite Hf. cbn [String.eqb negb].
    rewrite fileFilter_spec, bool_decide_eq_true_2 by exact Hm.
    reflexivity.
  - split; [reflexivity|]. cbn [disk set_file write_file]. apply lookup_insert_eq.
Qed.

Lemma stored_name_witness :
  exists c',
    multer_single "image" Sample.world (init (Sample.post_upload Sample.png) ∅)
    = Next c' /\
    req_file c'
    = Some {| s_file := part_file Sample.png; s_destination := "images";
              s_filename := "2024-11-03T02-34-56.789Z-cat.png";
              s_path := "images/2024-11-03T02-34-56.789Z-cat.png" |} /\
    disk c' !! "images/2024-11-03T02-34-56.789Z-cat.png" = Some "PNG".
Proof.
  refine (proj2 (proj2 (proj2
    (stored_name Sample.world (init (Sample.post_upload Sample.png) ∅)
       {[ "_csrf" := "salt-k" ]} Sample.png eq_refl _ eq_refl _)))).
  - discriminate.
  - unfold image_types. apply elem_of_cons. left. reflexivity.
Defined.

(** C7.  The 500 handler always answers: status 500, view [500], with
    [isAuthenticated] read from a session that may be missing.  Handed
    to [next] anywhere before it, an error ends there.  The flag is
    false without a session, and otherwise the session's [isLoggedIn]
    when that is truthy and false when it is not. *)
Theorem error_page_never_throws E (k : nat) (e : JS.exn) (c : ctx)
    (Hk : (k <= 16)%nat) :
  (exists options,
     error500 e c = Respond {| status := 500; sent := Rendered "500" options |} c /\
     options !! "isAuthenticated" = Some (isAuthenticated (req_session c)) /\
     dispatch E (drop k (stack variant1)) (Some e) c
     = {| ran := [(Error500, c)];
          reply := {| status := 500; sent := Rendered "500" options |};
          final := c |}) /\
  isAuthenticated JS.VUndef = JS.VBool false /\
  isAuthenticated JS.VNull = JS.VBool false /\
  (forall o,
     isAuthenticated (JS.VObj o)
     = if JS.truthy (default JS.VUndef (o !! "isLoggedIn"))
       then default JS.VUndef (o !! "isLoggedIn")
       else JS.VBool false) /\
  JS.truthy (isAuthenticated (req_session c))
  = JS.truthy (JS.opt_get (req_session c) "isLoggedIn").
Proof.
  split; [|auto using isAuthenticated_truthy].
  eexists. split; [reflexivity|]. split.
  - rewrite lookup_insert_ne by done. rewrite lookup_insert_ne by done.
    apply lookup_singleton_eq.
  - unfold dispatch. rewrite rescue by exact Hk. reflexivity.
Qed.

Lemma error_page_never_throws_witness :
  dispatch Sample.world (drop 8 (stack variant1))
    (Some (JS.Error "misconfigured csrf"))
    (init Sample.post_without_token ∅)
  = {| ran := [(Error500, init Sample.post_without_token ∅)];
       reply := page500 (init Sample.post_without_token ∅);
       final := init Sample.post_without_token ∅ |}.
Proof.
  destruct (error_page_never_throws Sample.world 8
              (JS.Error "misconfigured csrf")
              (init Sample.post_without_token ∅) ltac:(lia))
    as [(options & H1 & _ & H3) _].
  injection H1 as <-. exact H3.
Defined.

(** C8, as the claim states it: two uploads of the same name in the same
    second would get the same file name.  At 0 ms and 1 ms they do not. *)
Lemma same_second_collision_fails :
  ~ (forall t t' f f',
       DateTime.valid_time t -> DateTime.valid_time t' ->
       (generated_name t f = generated_name t' f'
        <-> originalname f = originalname f' /\ same_second t t')).
Proof.
  intros H.
  assert (generated_name 0 (part_file Sample.png)
          = generated_name 1 (part_file Sample.png)) as Hn.
  { apply (H 0 1); [unfold DateTime.valid_time, DateTime.maxTime; lia..|].
    split; reflexivity. }
  vm_compute in Hn. discriminate Hn.
Qed.

(** C8, amended.  Two uploads get the same file name exactly when their
    original names and their clock readings, in milliseconds, are the
    same; the second then overwrites the first. *)
Theorem name_collision (t t' : Z) (p p' : part) (c : ctx)
    (Ht : DateTime.valid_time t) (Ht' : DateTime.valid_time t') :
  (generated_name t (part_file p) = generated_name t' (part_file p')
   <-> originalname (part_file p) = originalname (part_file p') /\ t = t') /\
  exists c1 c2,
    handleFile t p c = inr c1 /\
    handleFile t' p' c1 = inr c2 /\
    (generated_name t (part_file p) = generated_name t' (part_file p') ->
     disk c2
     = <[ "images/" +:+ generated_name t' (part_file p') := part_data p' ]> (disk c)).
Proof.
  split.
  - split.
    + intros H. apply generated_name_inj in H; tauto.
    + intros [Ho ->]. unfold generated_name, filename. now rewrite Ho.
  - eexists _, _. split; [reflexivity|]. split; [reflexivity|].
    intros H. cbn [disk set_file write_file].
    change (replace_colons (DateTime.toISOString t) +:+ "-" +:+
              originalname (part_file p)) with (generated_name t (part_file p)).
    change (replace_colons (DateTime.toISOString t') +:+ "-" +:+
              originalname (part_file p')) with (generated_name t' (part_file p')).
    rewrite H. apply insert_insert_eq.
Qed.

Lemma name_collision_witness :
  generated_name 1730601296789 (part_file Sample.png)
  = generated_name 1730601296789 (part_file Sample.png)
  <-> originalname (part_file Sample.png) = originalname (part_file Sample.png)
      /\ 1730601296789 = 1730601296789.
Proof.
  refine (proj1 (name_collision 1730601296789 1730601296789 Sample.png Sample.png
            (init Sample.get_debug ∅) _ _));
    unfold DateTime.valid_time, DateTime.maxTime; lia.
Defined.

(** C9, as the claim states it: apart from the session-store library and
    the connection options the two bootstraps would be the same. *)
Lemma variants_differ_beyond_store_and_connection :
  modulo_store_and_connection variant1 <> modulo_store_and_connection variant2.
Proof. intros H. apply (f_equal default_port) in H. discriminate H. Qed.

(** C9, amended.  The two bootstraps are the same up to the session
    store, the connection options, the [maxAge] of the session cookie
    (one day against none) and the default port (3001 against 3000); the
    layers and their order are the same, and a request whose session is
    already in the store is handled the same way by both. *)
Theorem variants_agree E (r : request) (files : gmap string string)
    (Hest : established E r) :
  modulo_store_connection_cookie_port variant1
  = modulo_store_connection_cookie_port variant2 /\
  map mw_of (map (map_session forget_all) (stack variant1))
  = map mw_of (map (map_session forget_all) (stack variant2)) /\
  session_options_of variant1 = [variant1_session] /\
  session_options_of variant2 = [variant2_session] /\
  store variant1_session = MongoDBStore "MONGODB_URI" "shop" "sessions" true /\
  store variant2_session = MongoStore "MONGODB_URI" "hop" /\
  cookie_maxAge variant1_session = Some 86400000 /\
  cookie_maxAge variant2_session = None /\
  connect_options variant1
  = [("useNewUrlParser", true); ("useUnifiedTopology", true)] /\
  connect_options variant2 = [] /\
  default_port variant1 = 3001 /\
  default_port variant2 = 3000 /\
  blur (ran (run variant1 E r files)) = blur (ran (run variant2 E r files)) /\
  reply (run variant1 E r files) = reply (run variant2 E r files) /\
  final (run variant1 E r files) = final (run variant2 E r files).
Proof.
  do 12 (split; [reflexivity|]).
  unfold run, dispatch. rewrite stack_split1, stack_split2, !walk_app.
  pose proof (front_cases E r files) as Hf.
  destruct (walk E front None (init r files)) as [tr0 rs0 c0|tr0 [e0|] c0];
    cbn [and_then]; [auto|auto|].
  rewrite !walk_app, !(session_established E _ r c0 Hest Hf).
  cbn [walk enter and_then after].
  destruct (walk E (middle ++ back) None _) as [tr1 rs1 c1|tr1 e1 c1];
    cbn [after ran reply final]; rewrite !blur_app; auto.
Qed.

Lemma variants_agree_witness :
  reply (run variant1 Sample.world Sample.get_debug ∅)
  = reply (run variant2 Sample.world Sample.get_debug ∅).
Proof.
  assert (established Sample.world Sample.get_debug) as Hest
    by (exists "s1", Sample.stored_session; split; reflexivity).
  pose proof (variants_agree Sample.world Sample.get_debug ∅ Hest) as H.
  do 13 (destruct H as [_ H]). exact (proj1 H).
Defined.



(** * Further properties of the pipeline *)

(** ** Invariants along a walk *)

Section Keeping.
Context (E : env) (P : ctx -> Prop).

Lemma standing_enter x p : standing (enter x p) = standing p.
Proof. destruct p; reflexivity. Qed.

(** If every layer of a stretch keeps [P], the walk enters each layer
    with [P] and leaves the stretch with [P]. *)
Lemma walk_keeps l :
  Forall (fun r => keeps E P (mw_of r)) l ->
  forall err c, P c ->
    P (standing (walk E l err c)) /\
    Forall (fun x => P (snd x)) (visited (walk E l err c)).
Proof.
  induction 1 as [|r l Hr Hl IH]; intros err c Hc; cbn [walk].
  - split; [exact Hc|constructor].
  - destruct (applies E r c); [|apply IH, Hc].
    unfold keeps in Hr.
    destruct (handle E (mw_of r)) as [h|h], err as [e|]; try (apply IH, Hc).
    + rewrite standing_enter, visited_enter. specialize (Hr c Hc).
      destruct (h c) as [c'|e' c'|rs c'].
      * destruct (IH None c' Hr). split; [assumption|constructor; assumption].
      * destruct (IH (Some e') c' Hr). split; [assumption|constructor; assumption].
      * split; [exact Hr|constructor; [exact Hc|constructor]].
    + rewrite standing_enter, visited_enter. specialize (Hr e c Hc).
      destruct (h e c) as [c'|e' c'|rs c'].
      * destruct (IH None c' Hr). split; [assumption|constructor; assumption].
      * destruct (IH (Some e') c' Hr). split; [assumption|constructor; assumption].
      * split; [exact Hr|constructor; [exact Hc|constructor]].
Qed.

End Keeping.

(** ** Layers that leave the upload alone *)

Lemma quiet_layers E c0 mw :
  mw <> AdminRoutes -> mw <> ShopRoutes -> mw <> AuthRoutes ->
  (forall field, mw <> MulterSingle field) ->
  keeps E (same_upload c0) mw.
Proof.
  intros Ha Hs Hu Hm. unfold keeps, same_upload.
  destruct mw; try congruence; try (exfalso; now eapply Hm); cbn [handle];
    try (intros c (H1 & H2 & H3)); try (intros e c (H1 & H2 & H3));
    unfold urlencoded, serve_static, session_mw, csrfProtection, flash,
      setLocals, call_csrfToken, setUser, get404, error500, debugSession;
    quiet_step.
Qed.

(** ** Taking a walk apart *)

Section Apart.
Context (E : env).

(** A walk over two stretches that stands without an error stood after
    the first stretch too. *)
Lemma pending_app l1 l2 err c tr c' :
  walk E (l1 ++ l2) err c = Pending tr None c' ->
  exists tr1 err1 c1 tr2,
    walk E l1 err c = Pending tr1 err1 c1 /\
    walk E l2 err1 c1 = Pending tr2 None c' /\
    tr = tr1 ++ tr2.
Proof.
  rewrite walk_app.
  destruct (walk E l1 err c) as [tr1 rs1 c1|tr1 err1 c1]; cbn [and_then];
    [discriminate|].
  destruct (walk E l2 err1 c1) as [tr2 rs2 c2|tr2 err2 c2] eqn:H2; cbn [after];
    [discriminate|].
  intros [= <- -> <-]. eauto 8.
Qed.

(** One layer registered with [app.use(fn)], passed without an error. *)
Lemma pending_use mw h err c tr c' :
  handle E mw = Normal h ->
  walk E [Use mw] err c = Pending tr None c' ->
  err = None /\ h c = Next c' /\ tr = [(mw, c)].
Proof.
  intros Hh. cbn [walk applies mw_of]. rewrite Hh.
  destruct err as [e|]; [discriminate|].
  destruct (h c) as [c1|e1 c1|rs c1]; cbn; [|discriminate..].
  now intros [= <- <-].
Qed.

End Apart.

(** A request enters its first route group with the context the layers
    before the routes left, none of them having failed. *)
Lemma route_entry_standing E r files mw c :
  route_entry (ran (run variant1 E r files)) = Some (mw, c) ->
  exists tr, walk E pre_routes None (init r files) = Pending tr None c.
Proof.
  unfold run. rewrite ran_dispatch.
  change (stack variant1) with (pre_routes ++ back). rewrite walk_app.
  pose proof (walk_sublist E pre_routes None (init r files)) as Hsub.
  destruct (walk E pre_routes None (init r files)) as [tr rs c1|tr [e|] c1];
    cbn [and_then visited] in *.
  - intros H. now rewrite (no_route_entry tr _ Hsub) in H.
  - rewrite back_error. cbn [after visited]. unfold route_entry.
    rewrite find_app. fold (route_entry tr).
    rewrite (no_route_entry tr _ Hsub) by reflexivity. discriminate.
  - intros H. exists tr. f_equal.
    destruct (walk E back None c1) as [tr3 rs3 c3|tr3 e3 c3] eqn:Hb;
      cbn [after visited] in H; unfold route_entry in H;
      rewrite find_app in H; fold (route_entry tr) (route_entry tr3) in H;
      rewrite (no_route_entry tr _ Hsub) in H by reflexivity;
      pose proof (back_entry E c1 mw c) as Hbe; rewrite Hb in Hbe;
      symmetry; now apply Hbe.
Qed.

(** The chain of contexts behind a route entry: out of the first seven
    layers, through session, CSRF check, flash, locals and user
    attachment. *)
Lemma route_entry_chain E r files mw c :
  route_entry (ran (run variant1 E r files)) = Some (mw, c) ->
  exists tr0 c0 c1 c2 c3,
    walk E front None (init r files) = Pending tr0 None c0 /\
    session_mw variant1_session E c0 = Next c1 /\
    csrfProtection E c1 = Next c2 /\
    setLocals E (set_flash true c2) = Next c3 /\
    setUser E c3 = Next c.
Proof.
  intros H. apply route_entry_standing in H as [tr H].
  change pre_routes
    with (front ++ [Use (Session variant1_session)] ++ [Use CsrfProtection]
            ++ [Use Flash] ++ [Use SetLocals] ++ [Use SetUser]) in H.
  apply pending_app in H as (tr0 & e0 & c0 & ? & H0 & H & _).
  apply pending_app in H as (? & e1 & c1 & ? & H1 & H & _).
  apply pending_app in H as (? & e2 & c2 & ? & H2 & H & _).
  apply pending_app in H as (? & e3 & c2' & ? & H3 & H & _).
  apply pending_app in H as (? & e4 & c3 & ? & H4 & H & _).
  apply (pending_use E SetUser _ _ _ _ _ eq_refl) in H as (-> & H5 & _).
  apply (pending_use E SetLocals _ _ _ _ _ eq_refl) in H4 as (-> & H4 & _).
  apply (pending_use E Flash _ _ _ _ _ eq_refl) in H3 as (-> & H3 & _).
  apply (pending_use E CsrfProtection _ _ _ _ _ eq_refl) in H2 as (-> & H2 & _).
  apply (pending_use E (Session _) _ _ _ _ _ eq_refl) in H1 as (-> & H1 & _).
  unfold flash in H3. injection H3 as <-.
  eauto 10.
Qed.

(** ** What the routes find in the context *)

Lemma keeps_next E (P : ctx -> Prop) mw h c c' :
  keeps E P mw -> handle E mw = Normal h -> P c -> h c = Next c' -> P c'.
Proof.
  unfold keeps. intros Hk Hh Hc Hn. rewrite Hh in Hk.
  specialize (Hk c Hc). now rewrite Hn in Hk.
Qed.

(** No layer before user attachment sets [req.user]. *)
Lemma user_untouched E mw :
  mw <> AdminRoutes -> mw <> ShopRoutes -> mw <> AuthRoutes -> mw <> SetUser ->
  keeps E (fun c => req_user c = JS.VUndef) mw.
Proof.
  intros Ha Hs Hu Hm. unfold keeps.
  destruct mw; try congruence; cbn [handle];
    try (intros c H); try (intros e c H);
    unfold urlencoded, multer_single, handleFile, serve_static, session_mw,
      csrfProtection, flash, setLocals, call_csrfToken, get404, error500,
      debugSession;
    repeat case_match; simplify_eq; cbn; congruence.
Qed.

Lemma csrf_session E c c' s :
  req_session c = JS.VObj s ->
  csrfProtection E c = Next c' ->
  req_session c' = JS.VObj (with_secret E s).
Proof.
  intros Hs. unfold csrfProtection, with_secret. rewrite Hs.
  cbn [JS.truthy negb JS.opt_get JS.set].
  destruct (negb (ignoreMethod _) && _); [discriminate|].
  destruct (JS.truthy (default JS.VUndef (s !! "csrfSecret")));
    intros [= <-]; [exact Hs|reflexivity].
Qed.

Lemma with_secret_defined E s :
  default JS.VUndef (with_secret E s !! "csrfSecret") <> JS.VUndef.
Proof.
  unfold with_secret.
  destruct (JS.truthy (default JS.VUndef (s !! "csrfSecret"))) eqn:H.
  - intros Hu. now rewrite Hu in H.
  - now rewrite lookup_insert_eq.
Qed.

Lemma same_upload_refl c : same_upload c c.
Proof. unfold same_upload. auto. Qed.

(** From the session middleware to user attachment nothing touches the
    request, the attached file or the disk. *)
Lemma chain_same_upload E c0 c1 c2 c3 c :
  session_mw variant1_session E c0 = Next c1 ->
  csrfProtection E c1 = Next c2 ->
  setLocals E (set_flash true c2) = Next c3 ->
  setUser E c3 = Next c ->
  same_upload c0 c.
Proof.
  intros H1 H2 H3 H4.
  assert (forall mw, mw <> AdminRoutes -> mw <> ShopRoutes -> mw <> AuthRoutes ->
            (forall field, mw <> MulterSingle field) ->
            keeps E (same_upload c0) mw) as Hq by (intros; now apply quiet_layers).
  pose proof (same_upload_refl c0) as P0.
  eapply (keeps_next E _ (Session variant1_session)) in P0;
    [|apply Hq; try discriminate; intros; discriminate|reflexivity|exact H1].
  eapply (keeps_next E _ CsrfProtection) in P0;
    [|apply Hq; try discriminate; intros; discriminate|reflexivity|exact H2].
  eapply (keeps_next E _ Flash) in P0;
    [|apply Hq; try discriminate; intros; discriminate|reflexivity|reflexivity].
  eapply (keeps_next E _ SetLocals) in P0;
    [|apply Hq; try discriminate; intros; discriminate|reflexivity|exact H3].
  eapply (keeps_next E _ SetUser) in P0;
    [|apply Hq; try discriminate; intros; discriminate|reflexivity|exact H4].
  exact P0.
Qed.

(** X1.  When a request enters its first route group the store is
    connected, the request is the one that came in, and the session is
    the stored one, untouched but for a CSRF secret added when it had
    none; for a request without a stored session it is a fresh session:
    a cookie with path [/], [httpOnly], an expiry date one day after the
    clock reading at which it was set and the age left of that day, and
    a fresh secret.  No route is entered after a store error. *)
Theorem route_session E (r : request) (files : gmap string string)
    (mw : middleware) (c : ctx)
    (Hentry : route_entry (ran (run variant1 E r files)) = Some (mw, c)) :
  let fresh :=
    JS.VObj
      (<[ "csrfSecret" := JS.VStr (secretSync E) ]>
       {[ "cookie" :=
            JS.VObj
              (<[ "originalMaxAge" :=
                    JS.VNum (cookie_set E + 86400000 - cookie_read E) ]>
               (<[ "expires" := JS.VDate (cookie_set E + 86400000) ]>
               (<[ "httpOnly" := JS.VBool true ]>
               {[ "path" := JS.VStr "/" ]}))) ]}) in
  req c = r /\
  store_ready E = true /\
  match r_sid r with
  | Some sid =>
      match store_get E sid with
      | Found s => req_session c = JS.VObj (with_secret E s)
      | Missing => req_session c = fresh
      | StoreError _ => False
      end
  | None => req_session c = fresh
  end.
Proof.
  intros fresh.
  destruct (route_entry_chain E r files mw c Hentry)
    as (tr0 & c0 & c1 & c2 & c3 & H0 & H1 & H2 & H3 & H4).
  pose proof (front_cases E r files) as Hf. rewrite H0 in Hf.
  destruct Hf as (Hr & Hs & _ & _).
  destruct (chain_same_upload E c0 c1 c2 c3 c H1 H2 H3 H4) as (Hreq & _ & _).
  split; [congruence|].
  assert (forall s, req_session c1 = JS.VObj s ->
            req_session c = JS.VObj (with_secret E s)) as Hgo.
  { intros s Hs1.
    pose proof (csrf_session E c1 c2 s Hs1 H2) as Hs2.
    pose proof (csrf_next E c1 c2 s Hs1 H2) as (Htok & _).
    destruct (setLocals_next E (set_flash true c2) c3 (with_secret E s))
      as [Hs3 _]; auto using with_secret_defined.
    apply setUser_next in H4 as [Hs4 _]. now rewrite Hs4. }
  assert (req_session c1 = new_session variant1_session E ->
          req_session c = fresh) as Hfresh.
  { unfold new_session, new_cookie, variant1_session. cbn [cookie_maxAge].
    intros Hs1. rewrite (Hgo _ Hs1). unfold with_secret.
    rewrite lookup_singleton_ne by done. reflexivity. }
  unfold session_mw in H1. rewrite Hs, Hr in H1. cbn [JS.truthy] in H1.
  destruct (store_ready E); cbn [negb] in H1.
  2:{ injection H1 as <-. unfold csrfProtection in H2. rewrite Hs in H2.
      discriminate H2. }
  split; [reflexivity|].
  destruct (r_sid r) as [sid|].
  - destruct (store_get E sid) as [s| |e]; [| |discriminate H1];
      injection H1 as <-; [now apply Hgo|now apply Hfresh].
  - injection H1 as <-. now apply Hfresh.
Qed.

Lemma route_session_witness :
  (exists c,
     route_entry (ran (run variant1 Sample.world Sample.get_debug ∅))
     = Some (ShopRoutes, c) /\
     req_session c = JS.VObj Sample.stored_session) /\
  (exists c,
     route_entry (ran (run variant1 Sample.world Cases.first_visit ∅))
     = Some (ShopRoutes, c) /\
     req_session c
     = JS.VObj
         (<[ "csrfSecret" := JS.VStr "fresh" ]>
          {[ "cookie" :=
               JS.VObj
                 (<[ "originalMaxAge" := JS.VNum 86400000 ]>
                  (<[ "expires" := JS.VDate 1730687696791 ]>
                  (<[ "httpOnly" := JS.VBool true ]>
                  {[ "path" := JS.VStr "/" ]}))) ]})).
Proof.
  assert (route_entry (ran (run variant1 Sample.world Sample.get_debug ∅))
          = Some (ShopRoutes, final (run variant1 Sample.world Sample.get_debug ∅)))
    as H by (vm_compute; reflexivity).
  assert (route_entry (ran (run variant1 Sample.world Cases.first_visit ∅))
          = Some (ShopRoutes, final (run variant1 Sample.world Cases.first_visit ∅)))
    as H' by (vm_compute; reflexivity).
  split; eexists; (split; [eassumption|]).
  - exact (proj2 (proj2 (route_session Sample.world Sample.get_debug ∅ _ _ H))).
  - exact (proj2 (proj2 (route_session Sample.world Cases.first_visit ∅ _ _ H'))).
Defined.

Lemma get_opt_get v k x : JS.get v k = inr x -> x = JS.opt_get v k.
Proof. destruct v; cbn; intros [= <-]; reflexivity. Qed.

Lemma front_no_user E r files :
  req_user (standing (walk E front None (init r files))) = JS.VUndef.
Proof.
  apply (walk_keeps E (fun c => req_user c = JS.VUndef) front); [|reflexivity].
  unfold front.
  repeat (apply Forall_cons_2; [apply user_untouched; discriminate|]).
  apply Forall_nil_2.
Qed.

(** User attachment is always entered without a user on the request. *)
Lemma setUser_entry_user E r files c :
  (SetUser, c) ∈ ran (run variant1 E r files) ->
  req_user c = JS.VUndef.
Proof.
  unfold run. rewrite ran_dispatch.
  change (stack variant1)
    with ((front ++ [Use (Session variant1_session)] ++ checks)
            ++ [Use SetUser] ++ back).
  rewrite walk_app, visited_and_then.
  destruct (walk_keeps E (fun c => req_user c = JS.VUndef)
              (front ++ [Use (Session variant1_session)] ++ checks))
    with (err := @None JS.exn) (c := init r files) as [Hst Hvis].
  { unfold front, checks. cbn [app].
    repeat (apply Forall_cons_2; [apply user_untouched; discriminate|]).
    apply Forall_nil_2. }
  { reflexivity. }
  rewrite Forall_forall in Hvis.
  destruct (walk E (front ++ [Use (Session variant1_session)] ++ checks) None
              (init r files)) as [tr rs c1|tr err c1];
    cbn [standing visited] in *.
  - intros Hin. exact (Hvis _ Hin).
  - intros Hin. apply elem_of_app in Hin as [Hin|Hin]; [exact (Hvis _ Hin)|].
    destruct err as [e|].
    + rewrite walk_app in Hin. cbn [walk applies handle mw_of and_then] in Hin.
      rewrite after_nil, back_error in Hin. cbn [visited] in Hin.
      apply list_elem_of_singleton in Hin. discriminate Hin.
    + cbn [app walk applies handle mw_of] in Hin. rewrite visited_enter in Hin.
      apply elem_of_cons in Hin as [Hin|Hin]; [now injection Hin as ->|].
      exfalso. revert Hin.
      assert (forall err' c', (SetUser, c) ∉ visited (walk E back err' c')) as Hno.
      { intros err' c'. eapply not_entered; [apply walk_sublist|].
        cbn. set_solver. }
      destruct (setUser E c1); cbn [visited]; [apply Hno|apply Hno|].
      apply not_elem_of_nil.
Qed.

(** C5.  Whenever user attachment runs, the request has a session
    object and no user yet.  Without a user in the session the request
    passes on unchanged; a user that is found is attached: the request
    goes on with [req.user] the found document and nothing else
    changed; a lookup that finds nothing passes the request on
    unchanged, still without a user; a failed lookup is handed on as an
    error whose message is the failure's string form, and the request
    ends with the 500 page. *)
Theorem user_attachment E (r : request) (files : gmap string string) (c : ctx)
    (Hin : (SetUser, c) ∈ ran (run variant1 E r files)) :
  exists o,
    req_session c = JS.VObj o /\
    req_user c = JS.VUndef /\
    let u := default JS.VUndef (o !! "user") in
    if JS.truthy u then
      match findById E (JS.opt_get u "_id") with
      | Resolved user =>
          if JS.truthy user then
            exists c',
              setUser E c = Next c' /\
              req_user c' = user /\
              req c' = req c /\ req_body c' = req_body c /\
              req_file c' = req_file c /\ req_session c' = req_session c /\
              req_csrfToken c' = req_csrfToken c /\
              req_flash c' = req_flash c /\
              res_locals c' = res_locals c /\ disk c' = disk c
          else setUser E c = Next c
      | Rejected err =>
          setUser E c = Raise (JS.Error (JS.to_string err)) c /\
          reply (run variant1 E r files) = page500 c /\
          status (reply (run variant1 E r files)) = 500 /\
          last (stages (ran (run variant1 E r files))) = Some Error500
      end
    else setUser E c = Next c.
Proof.
  pose proof (setUser_entry_user E r files c Hin) as Hu0.
  destruct (setUser_entry E r files c Hin) as ([o Hs] & tr & Hrun).
  exists o. split; [exact Hs|]. split; [exact Hu0|]. intros u.
  unfold setUser. rewrite Hs. cbn [JS.get]. fold u.
  unfold JS.not. destruct (JS.truthy u) eqn:Hu; cbn [negb]; [|reflexivity].
  assert (JS.get u "_id" = inr (JS.opt_get u "_id")) as Hid
    by (destruct u; try discriminate; reflexivity).
  rewrite Hid.
  destruct (findById E (JS.opt_get u "_id")) as [user|err] eqn:Hf.
  - destruct (JS.truthy user); cbn [negb]; [|reflexivity].
    exists (set_user user c). repeat split. exact Hs.
  - split; [reflexivity|].
    assert (walk E (drop 11 (stack variant1)) None c
            = Answered [(SetUser, c); (Error500, c)] (page500 c) c) as Hw.
    { change (drop 11 (stack variant1)) with ([Use SetUser] ++ back).
      rewrite walk_app. cbn [walk applies handle mw_of].
      unfold setUser. rewrite Hs. cbn [JS.get]. fold u. unfold JS.not.
      rewrite Hu, Hid, Hf. cbn [negb enter and_then after app].
      rewrite back_error. reflexivity. }
    unfold run, dispatch. rewrite Hrun, Hw. cbn [after ran reply].
    split; [reflexivity|]. split; [reflexivity|].
    unfold stages. rewrite map_app. cbn [map fst].
    change [SetUser; Error500] with ([SetUser] ++ [Error500]).
    rewrite app_assoc. apply last_snoc.
Qed.

Lemma user_attachment_witness :
  (exists c',
     setUser Sample.world Sample.at_user_attachment = Next c' /\
     req_user c' = Sample.alice /\
     req c' = Sample.get_debug /\
     req_session c' = JS.VObj Sample.stored_session) /\
  setUser Cases.lookup_fails Sample.at_user_attachment
  = Raise (JS.Error "CastError: Cast to ObjectId failed")
      Sample.at_user_attachment /\
  status (reply (run variant1 Cases.lookup_fails Sample.get_debug ∅)) = 500.
Proof.
  assert (ran (run variant1 Sample.world Sample.get_debug ∅) !! 10%nat
          = Some (SetUser, Sample.at_user_attachment)) as Hin
    by (vm_compute; reflexivity).
  apply list_elem_of_lookup_2 in Hin.
  assert (ran (run variant1 Cases.lookup_fails Sample.get_debug ∅) !! 10%nat
          = Some (SetUser, Sample.at_user_attachment)) as Hin'
    by (vm_compute; reflexivity).
  apply list_elem_of_lookup_2 in Hin'.
  split.
  - destruct (user_attachment Sample.world Sample.get_debug ∅ _ Hin)
      as (o & Ho & _ & H).
    injection Ho as <-. destruct H as (c' & H1 & H2 & H3 & _ & _ & H4 & _).
    exists c'. auto.
  - destruct (user_attachment Cases.lookup_fails Sample.get_debug ∅ _ Hin')
      as (o & Ho & _ & H).
    injection Ho as <-. destruct H as (H1 & _ & H2 & _). auto.
Defined.

(** X2.  When a request enters its first route group, [req.user] is
    the document the lookup by the session's [user._id] resolved to, if
    the session names a user and the lookup found one, and is not set
    otherwise. *)
Theorem route_user E (r : request) (files : gmap string string)
    (mw : middleware) (c : ctx)
    (Hentry : route_entry (ran (run variant1 E r files)) = Some (mw, c)) :
  let u := JS.opt_get (req_session c) "user" in
  if JS.truthy u then
    exists user,
      findById E (JS.opt_get u "_id") = Resolved user /\
      req_user c = (if JS.truthy user then user else JS.VUndef)
  else req_user c = JS.VUndef.
Proof.
  destruct (route_entry_chain E r files mw c Hentry)
    as (tr0 & c0 & c1 & c2 & c3 & H0 & H1 & H2 & H3 & H4).
  set (P := fun c : ctx => req_user c = JS.VUndef).
  assert (P c0) as P0
    by (pose proof (front_no_user E r files) as H; now rewrite H0 in H).
  assert (P c1) as P1
    by (eapply (keeps_next E P (Session variant1_session));
        [apply user_untouched; discriminate|reflexivity|exact P0|exact H1]).
  assert (P c2) as P2
    by (eapply (keeps_next E P CsrfProtection);
        [apply user_untouched; discriminate|reflexivity|exact P1|exact H2]).
  assert (P c3) as P3
    by (eapply (keeps_next E P SetLocals);
        [apply user_untouched; discriminate|reflexivity| |exact H3];
        exact P2).
  clear P0 P1 P2. rename P3 into P0.
  unfold P in P0. clear P.
  pose proof (setUser_next E c3 c H4) as [Hs _]. rewrite Hs. clear Hs.
  intros u. unfold setUser in H4.
  destruct (JS.get (req_session c3) "user") as [e|u'] eqn:Hu; [discriminate|].
  apply get_opt_get in Hu. fold u in Hu. subst u'.
  unfold JS.not in H4. destruct (JS.truthy u); cbn [negb] in H4.
  - destruct (JS.get u "_id") as [e|id] eqn:Hid; [discriminate|].
    apply get_opt_get in Hid. subst id.
    destruct (findById E (JS.opt_get u "_id")) as [user|err]; [|discriminate].
    exists user. split; [reflexivity|].
    destruct (JS.truthy user); cbn [negb] in H4; injection H4 as <-;
      [reflexivity|exact P0].
  - now injection H4 as <-.
Qed.

Lemma route_user_witness :
  exists user,
    findById Sample.world (JS.VStr "u1") = Resolved user /\
    req_user (final (run variant1 Sample.world Sample.get_debug ∅))
    = (if JS.truthy user then user else JS.VUndef).
Proof.
  assert (route_entry (ran (run variant1 Sample.world Sample.get_debug ∅))
          = Some (ShopRoutes, final (run variant1 Sample.world Sample.get_debug ∅)))
    as H by (vm_compute; reflexivity).
  exact (route_user Sample.world Sample.get_debug ∅ _ _ H).
Defined.

(** ** The upload, from the request to the routes *)

Lemma standing_after tr p : standing (after tr p) = standing p.
Proof. destruct p; reflexivity. Qed.

Lemma standing_app E l1 l2 err c :
  standing (walk E (l1 ++ l2) err c)
  = match walk E l1 err c with
    | Answered _ _ c' => c'
    | Pending _ err' c' => standing (walk E l2 err' c')
    end.
Proof.
  rewrite walk_app. destruct (walk E l1 err c); cbn [and_then standing];
    [reflexivity|apply standing_after].
Qed.

Lemma ingress_upload E r files :
  upload_state E r files (standing (walk E ingress None (init r files))) /\
  req (standing (walk E ingress None (init r files))) = r.
Proof.
  unfold ingress, upload_state.
  cbn [walk applies handle mw_of]. rewrite !standing_enter.
  unfold urlencoded. cbn [req init].
  destruct (r_content r) as [|fields| |fields [p|]] eqn:Hc;
    cbn [walk applies handle mw_of]; rewrite ?standing_enter;
    unfold multer_single; cbn [req init set_body]; rewrite ?Hc;
    try (cbn; auto; fail).
  destruct (String.eqb_spec (originalname (part_file p)) "") as [Hn|Hn];
    [cbn; auto|].
  destruct (String.eqb_spec (fieldname (part_file p)) "image") as [Hf|Hf];
    cbn [negb]; [|cbn; auto].
  rewrite fileFilter_spec.
  destruct (decide (mimetype (part_file p) ∈ image_types)) as [Hm|Hm].
  - rewrite bool_decide_eq_true_2 by exact Hm. cbn. split; [|reflexivity].
    right. exists fields, p. auto 10.
  - rewrite bool_decide_eq_false_2 by exact Hm. cbn. auto.
Qed.

Lemma upload_state_same E r files c c' :
  same_upload c c' -> upload_state E r files c -> upload_state E r files c'.
Proof.
  intros (_ & Hf & Hd). unfold upload_state. rewrite Hf, Hd. auto.
Qed.

Lemma statics_quiet E c0 :
  Forall (fun r => keeps E (same_upload c0) (mw_of r)) statics.
Proof.
  unfold statics.
  repeat (apply Forall_cons_2;
          [apply quiet_layers; try discriminate; intros; discriminate|]).
  apply Forall_nil_2.
Qed.

Lemma front_upload E r files :
  upload_state E r files (standing (walk E front None (init r files))) /\
  req (standing (walk E front None (init r files))) = r.
Proof.
  change front with (ingress ++ statics). rewrite standing_app.
  destruct (ingress_upload E r files) as [Hu Hr].
  destruct (walk E ingress None (init r files)) as [tr rs c|tr err c];
    cbn [standing] in *; [auto|].
  destruct (walk_keeps E (same_upload c) statics (statics_quiet E c) err c
              (same_upload_refl c)) as [Hs _].
  split; [eapply upload_state_same; eauto|].
  destruct Hs as (Hreq & _). congruence.
Qed.

(** X3.  When a request enters its first route group, either no file is
    attached and the disk is as it was, or the request carried an image
    of an accepted type under the field [image], [req.file] describes it
    and the disk holds its bytes under the path in [req.file]. *)
Theorem route_upload E (r : request) (files : gmap string string)
    (mw : middleware) (c : ctx)
    (Hentry : route_entry (ran (run variant1 E r files)) = Some (mw, c)) :
  (req_file c = None /\ disk c = files) \/
  exists fields p,
    r_content r = Multipart fields (Some p) /\
    fieldname (part_file p) = "image" /\
    originalname (part_file p) <> "" /\
    mimetype (part_file p) ∈ image_types /\
    req_file c = Some (stored_as (now E) p) /\
    disk c = <[ s_path (stored_as (now E) p) := part_data p ]> files.
Proof.
  destruct (route_entry_chain E r files mw c Hentry)
    as (tr0 & c0 & c1 & c2 & c3 & H0 & H1 & H2 & H3 & H4).
  destruct (front_upload E r files) as [Hu _]. rewrite H0 in Hu.
  cbn [standing] in Hu.
  eapply upload_state_same; [|exact Hu].
  eapply chain_same_upload; eauto.
Qed.

Lemma route_upload_witness :
  let c := final (run variant1 Sample.world (Sample.post_upload Sample.png) ∅) in
  (req_file c = None /\ disk c = ∅) \/
  exists fields p,
    r_content (Sample.post_upload Sample.png) = Multipart fields (Some p) /\
    fieldname (part_file p) = "image" /\
    originalname (part_file p) <> "" /\
    mimetype (part_file p) ∈ image_types /\
    req_file c = Some (stored_as (now Sample.world) p) /\
    disk c = <[ s_path (stored_as (now Sample.world) p) := part_data p ]> ∅.
Proof.
  assert (route_entry
            (ran (run variant1 Sample.world (Sample.post_upload Sample.png) ∅))
          = Some (AdminRoutes,
                  final (run variant1 Sample.world (Sample.post_upload Sample.png) ∅)))
    as H by (vm_compute; reflexivity).
  exact (route_upload Sample.world (Sample.post_upload Sample.png) ∅ _ _ H).
Defined.

Lemma ingress_trace E r files c1 :
  urlencoded (init r files) = Next c1 ->
  walk E ingress None (init r files)
  = after [ (Helmet, init r files); (Compression, init r files);
            (Morgan "combined" "access.log", init r files);
            (UrlEncoded false, init r files); (MulterSingle "image", c1) ]
      match multer_single "image" E c1 with
      | Next c2 => Pending [] None c2
      | Raise e c2 => Pending [] (Some e) c2
      | Respond rs c2 => Answered [] rs c2
      end.
Proof.
  intros H1. unfold ingress. cbn [walk applies handle mw_of]. rewrite H1.
  cbn [walk applies handle mw_of].
  destruct (multer_single "image" E c1); reflexivity.
Qed.

Lemma ingress_stores E r files fields p :
  r_content r = Multipart fields (Some p) ->
  originalname (part_file p) <> "" ->
  fieldname (part_file p) = "image" ->
  mimetype (part_file p) ∈ image_types ->
  exists tr c,
    walk E ingress None (init r files) = Pending tr None c /\
    req_file c = Some (stored_as (now E) p) /\
    disk c = <[ s_path (stored_as (now E) p) := part_data p ]> files.
Proof.
  intros Hc Hn Hf Hm.
  assert (urlencoded (init r files) = Next (init r files)) as H1
    by (unfold urlencoded; cbn [req init]; now rewrite Hc).
  rewrite (ingress_trace E r files _ H1).
  unfold multer_single. cbn [req init]. rewrite Hc.
  destruct (String.eqb_spec (originalname (part_file p)) ""); [contradiction|].
  rewrite Hf. cbn [String.eqb negb].
  rewrite fileFilter_spec, bool_decide_eq_true_2 by exact Hm.
  cbn. eauto.
Qed.

Lemma ingress_refuses E r files fields p :
  r_content r = Multipart fields (Some p) ->
  originalname (part_file p) <> "" ->
  fieldname (part_file p) <> "image" ->
  walk E ingress None (init r files)
  = Pending [ (Helmet, init r files); (Compression, init r files);
              (Morgan "combined" "access.log", init r files);
              (UrlEncoded false, init r files);
              (MulterSingle "image", init r files) ]
      (Some (JS.MulterError "LIMIT_UNEXPECTED_FILE" "Unexpected field"
               (fieldname (part_file p))))
      (set_body fields (init r files)).
Proof.
  intros Hc Hn Hf.
  assert (urlencoded (init r files) = Next (init r files)) as H1
    by (unfold urlencoded; cbn [req init]; now rewrite Hc).
  rewrite (ingress_trace E r files _ H1).
  unfold multer_single. cbn [req init]. rewrite Hc.
  destruct (String.eqb_spec (originalname (part_file p)) ""); [contradiction|].
  destruct (String.eqb_spec (fieldname (part_file p)) "image"); [contradiction|].
  reflexivity.
Qed.

(** X5.  A multipart request with a named file under a field other than
    [image] fails in the upload middleware, whatever its type, method or
    token: the 500 handler answers, nothing is attached and nothing is
    written. *)
Theorem unexpected_field E (r : request) (files : gmap string string)
    (fields : gmap string string) (p : part)
    (Hc : r_content r = Multipart fields (Some p))
    (Hn : originalname (part_file p) <> "")
    (Hf : fieldname (part_file p) <> "image") :
  stages (ran (run variant1 E r files))
  = [ Helmet; Compression; Morgan "combined" "access.log"; UrlEncoded false;
      MulterSingle "image"; Error500 ] /\
  status (reply (run variant1 E r files)) = 500 /\
  req_file (final (run variant1 E r files)) = None /\
  disk (final (run variant1 E r files)) = files.
Proof.
  unfold run, dispatch.
  change (stack variant1) with (ingress ++ drop 5 (stack variant1)).
  rewrite walk_app, (ingress_refuses E r files fields p Hc Hn Hf).
  cbn [and_then]. rewrite (rescue E 5) by lia.
  cbn. auto.
Qed.

Lemma unexpected_field_witness :
  status (reply (run variant1 Sample.world Cases.post_avatar ∅)) = 500.
Proof.
  refine (proj1 (proj2
    (unexpected_field Sample.world Cases.post_avatar ∅
       {[ "_csrf" := "salt-k" ]} Cases.avatar eq_refl _ _))); discriminate.
Defined.

Lemma stopped_at_csrf E r files :
  ignoreMethod (r_method r) = false -> token_valid E r = false ->
  exists tr e c,
    walk E (front ++ [Use (Session variant1_session); Use CsrfProtection])
      None (init r files) = Pending tr (Some e) c.
Proof.
  intros Hm Hv. rewrite walk_app.
  pose proof (front_cases E r files) as Hf.
  destruct (walk E front None (init r files)) as [? ? ?|tr0 [e0|] c0].
  - congruence.
  - cbn. eauto.
  - destruct (csrf_stops E variant1_session r c0 Hf Hm Hv) as (tr1 & e1 & c1 & H1).
    cbn [and_then]. rewrite H1. cbn. eauto.
Qed.

Lemma gate_quiet E c0 :
  Forall (fun r => keeps E (same_upload c0) (mw_of r))
    (statics ++ [Use (Session variant1_session); Use CsrfProtection]).
Proof.
  unfold statics. cbn [app].
  repeat (apply Forall_cons_2;
          [apply quiet_layers; try discriminate; intros; discriminate|]).
  apply Forall_nil_2.
Qed.

(** X4.  The upload middleware runs before the CSRF check: an accepted
    image sent with a request that the CSRF check then rejects is on
    disk after the request has ended with the 500 page, without any
    route having run. *)
Theorem upload_outlives_rejection E (r : request) (files : gmap string string)
    (fields : gmap string string) (p : part)
    (Hc : r_content r = Multipart fields (Some p))
    (Hn : originalname (part_file p) <> "")
    (Hf : fieldname (part_file p) = "image")
    (Hty : mimetype (part_file p) ∈ image_types)
    (Hm : ignoreMethod (r_method r) = false)
    (Hv : token_valid E r = false) :
  status (reply (run variant1 E r files)) = 500 /\
  route_entry (ran (run variant1 E r files)) = None /\
  disk (final (run variant1 E r files))
    !! ("images/" +:+ generated_name (now E) (part_file p))
  = Some (part_data p).
Proof.
  destruct (stopped_at_csrf E r files Hm Hv) as (tr & e & c & Hpre).
  destruct (ingress_stores E r files fields p Hc Hn Hf Hty)
    as (tr5 & c5 & H5 & _ & Hd5).
  assert (disk c = disk c5) as Hd.
  { change (front ++ [Use (Session variant1_session); Use CsrfProtection])
      with (ingress ++ statics
              ++ [Use (Session variant1_session); Use CsrfProtection]) in Hpre.
    rewrite walk_app, H5 in Hpre. cbn [and_then] in Hpre.
    destruct (walk_keeps E (same_upload c5) _ (gate_quiet E c5) None c5
                (same_upload_refl c5)) as [(_ & _ & Hs) _].
    destruct (walk E _ None c5); cbn [after standing] in *;
      [discriminate|]. now injection Hpre as _ _ <-. }
  assert (walk E (stack variant1) None (init r files)
          = Answered (tr ++ [(Error500, c)]) (page500 c) c) as Hrun.
  { change (stack variant1)
      with ((front ++ [Use (Session variant1_session); Use CsrfProtection])
              ++ drop 9 (stack variant1)).
    rewrite walk_app, Hpre. cbn [and_then].
    rewrite (rescue E 9) by lia. reflexivity. }
  unfold run, dispatch. rewrite Hrun. cbn [ran reply final].
  split; [reflexivity|]. split.
  - pose proof (walk_sublist E
        (front ++ [Use (Session variant1_session); Use CsrfProtection])
        None (init r files)) as Hsub.
    rewrite Hpre in Hsub. cbn [visited] in Hsub.
    unfold route_entry. rewrite find_app. fold (route_entry tr).
    rewrite (no_route_entry tr _ Hsub); reflexivity.
  - rewrite Hd, Hd5. apply lookup_insert_eq.
Qed.

Lemma upload_outlives_rejection_witness :
  disk (final (run variant1 Sample.world Cases.post_upload_without_token ∅))
    !! "images/2024-11-03T02-34-56.789Z-cat.png"
  = Some "PNG".
Proof.
  refine (proj2 (proj2
    (upload_outlives_rejection Sample.world Cases.post_upload_without_token ∅
       ∅ Sample.png eq_refl _ eq_refl _ eq_refl eq_refl))).
  - discriminate.
  - unfold image_types. apply elem_of_cons. left. reflexivity.
Defined.

(** ** Before the session: parsing and static files *)









(** ** Passing the CSRF check *)





(** ** The shape of a generated name *)

Lemma chars_append a b :
  list_ascii_of_string (a +:+ b)
  = list_ascii_of_string a ++ list_ascii_of_string b.
Proof.
  induction a as [|x a IH]; [reflexivity|].
  rewrite append_String. cbn [list_ascii_of_string]. now rewrite IH.
Qed.

(** X9.  Only the colons of the time stamp are replaced: the stored
    name has a colon exactly when the original name has one. *)
Theorem colon_survives (t : Z) (f : file) :
  has_colon (generated_name t f) <-> has_colon (originalname f).
Proof.
  unfold has_colon, generated_name, filename.
  rewrite !chars_append, !elem_of_app. cbn [list_ascii_of_string].
  pose proof (replace_colons_clean (toISOString t)) as Hclean.
  rewrite list_elem_of_singleton. split; [|auto].
  intros [H|[H|H]]; [contradiction|discriminate|exact H].
Qed.

Lemma year_of_era t : four_digit_year t -> 0 <= YearFromTime t <= 9999.
Proof.
  unfold four_digit_year. intros Ht.
  pose proof (year_bounds t) as Hb.
  assert (-719528 <= Day t < 2932897) as Hd by (unfold Day, msPerDay; zdiv).
  set (y := YearFromTime t) in *. clearbody y.
  unfold DayFromYear in Hb. zdiv.
Qed.

Lemma length_pad w : forall n k,
  String.length (pad w n k) = (w + String.length k)%nat.
Proof.
  induction w as [|w IH]; intros n k; cbn [pad]; [reflexivity|].
  rewrite IH. cbn [String.length]. lia.
Qed.

Lemma length_stamp sep t k :
  four_digit_year t ->
  String.length (stamp sep t k) = (24 + String.length k)%nat.
Proof.
  intros Ht. apply year_of_era in Ht. unfold stamp, year_string.
  destruct (Z.leb_spec 0 (YearFromTime t)), (Z.leb_spec (YearFromTime t) 9999);
    try lia. cbn [andb].
  repeat (rewrite length_pad; cbn [String.length]). lia.
Qed.

Lemma substring_all s : substring 0 (String.length s) s = s.
Proof. induction s as [|a s IH]; cbn; [reflexivity|]. now rewrite IH. Qed.

Lemma substring_skip a : forall b n,
  substring (String.length a) n (a +:+ b) = substring 0 n b.
Proof.
  induction a as [|x a IH]; intros b n; [reflexivity|].
  rewrite append_String. cbn [String.length substring]. apply IH.
Qed.

Lemma substring_head a : forall b,
  substring 0 (String.length a) (a +:+ b) = a.
Proof.
  induction a as [|x a IH]; intros b; [now destruct b|].
  rewrite append_String. cbn [String.length substring]. now rewrite IH.
Qed.

Lemma append_empty s : s +:+ "" = s.
Proof. induction s as [|a s IH]; [reflexivity|]. rewrite append_String. now rewrite IH. Qed.

Lemma append_append a b c : (a +:+ b) +:+ c = a +:+ (b +:+ c).
Proof.
  induction a as [|x a IH]; [reflexivity|].
  rewrite !append_String. now rewrite IH.
Qed.

Lemma length_append a b :
  String.length (a +:+ b) = (String.length a + String.length b)%nat.
Proof.
  induction a as [|x a IH]; [reflexivity|].
  rewrite append_String. cbn [String.length]. now rewrite IH.
Qed.

Lemma length_replace_colons s :
  String.length (replace_colons s) = String.length s.
Proof. induction s as [|a s IH]; cbn; congruence. Qed.

(** X10.  For a clock reading in the years 0 to 9999 the time stamp has
    24 characters, and the stored name is the 24 characters of the
    stamp with hyphens for colons, a hyphen, and the original name,
    which is read back from position 25. *)
Theorem name_parts (t : Z) (f : file) (Ht : four_digit_year t) :
  String.length (toISOString t) = 24%nat /\
  String.length (generated_name t f)
  = (25 + String.length (originalname f))%nat /\
  substring 0 24 (generated_name t f) = replace_colons (toISOString t) /\
  substring 24 1 (generated_name t f) = "-" /\
  substring 25 (String.length (originalname f)) (generated_name t f)
  = originalname f.
Proof.
  assert (String.length (toISOString t) = 24%nat) as Hiso.
  { pose proof (length_stamp ":" t "" Ht) as H.
    rewrite <- toISOString_app, append_empty in H. exact H. }
  assert (String.length (replace_colons (toISOString t)) = 24%nat) as Hrep
    by now rewrite length_replace_colons.
  split; [exact Hiso|].
  unfold generated_name, filename.
  set (stampd := replace_colons (toISOString t)) in *.
  split; [|split; [|split]].
  - rewrite !length_append, Hrep. reflexivity.
  - rewrite <- Hrep. apply substring_head.
  - rewrite <- Hrep, substring_skip.
    change ("-" +:+ originalname f) with (String "-" (originalname f)).
    cbn [substring]. now destruct (originalname f).
  - rewrite <- append_append.
    replace 25%nat with (String.length (stampd +:+ "-"))
      by (rewrite length_append, Hrep; reflexivity).
    rewrite substring_skip. apply substring_all.
Qed.

Lemma name_parts_witness :
  String.length (generated_name 1730601296789 (part_file Sample.png)) = 32%nat.
Proof.
  refine (proj1 (proj2 (name_parts 1730601296789 (part_file Sample.png) _))).
  unfold four_digit_year. lia.
Defined.
(** ** The view locals the routes find *)






